(** * Omni Axis risk agent: the scoring engine, its history window and
      its statistics endpoint

    Shallow embedding of [ai-services/omni-axis-risk-agent/main.py].

    Numbers.  Python [int] fields are [Z].  A [float] field of a request
    is a [pyfloat]: a finite value, an infinity or a NaN, with Python's
    comparison against an integer literal.  Risk factors, weights,
    thresholds and scores are read twice.  In the exact reading they are
    rationals ([Q]): every decimal literal of the source denotes the
    rational it spells, and [+], [-], [*] are exact; the store, the
    statistics and the statements about levels, flags, recommendations
    and orderings of scores use this reading.  In the binary64 reading
    (module [B64]) they are the IEEE 754 numbers of the interpreter:
    literals and operations round to nearest, and [sum] adds the way the
    builtin does.  Statements about the value of a score use the binary64
    reading; both readings give every request the same level, flags and
    recommendations.

    State.  The Redis server behind [redis_client] is a finite map from
    keys to a list with an optional time to live; [lrange], [lpush],
    [ltrim] and [expire] follow the Redis command reference.  A JSON
    encoded history record is the record itself ([json.loads] inverts
    [json.dumps] on these records). *)

From Stdlib Require Import ZArith QArith Qminmax Lqa Lia List Ascii String.
From Stdlib Require Floats Uint63.
From stdpp Require Import base strings list gmap.
Import ListNotations.

Local Open Scope string_scope.
Local Open Scope list_scope.
Local Open Scope Z_scope.

#[local] Set Warnings "-inexact-float".

(** ** Values *)

(** A Python [float] received in a request body. *)
Inductive pyfloat : Type :=
| Finite (q : Q)
| PosInf
| NegInf
| NaN.

(** [x > n] for a float [x] and an integer literal [n]. *)
Definition float_gt_int (x : pyfloat) (n : Z) : bool :=
  match x with
  | Finite q => match (inject_Z n ?= q)%Q with Lt => true | _ => false end
  | PosInf => true
  | NegInf => false
  | NaN => false
  end.

(** [x < y] on floats: false as soon as one side is a NaN. *)
Definition float_lt (x y : pyfloat) : bool :=
  match x, y with
  | NaN, _ | _, NaN => false
  | _, NegInf => false
  | PosInf, _ => false
  | NegInf, _ => true
  | Finite _, PosInf => true
  | Finite p, Finite q => match (p ?= q)%Q with Lt => true | _ => false end
  end.

(** Comparisons of scores, as booleans. *)
Definition Qgeb (a b : Q) : bool := Qle_bool b a.
Definition Qgtb (a b : Q) : bool := negb (Qle_bool a b).

(** The builtin [sum] of a list of numbers (start value [0]) in the exact
    reading; [B64.sum] is the builtin on binary64 numbers. *)
Definition sum (l : list Q) : Q := fold_left Qplus l 0%Q.

(** [datetime]: the fields the service reads. *)
Record datetime : Type := mk_datetime {
  year : Z; month : Z; day : Z; hour : Z; minute : Z; second : Z
}.

(** ** Configuration *)

Record thresholds : Type := mk_thresholds {
  low : Q; medium : Q; high : Q; critical : Q
}.

Definition RISK_THRESHOLDS : thresholds :=
  {| low := 0.3; medium := 0.6; high := 0.8; critical := 0.95 |}.

(** ** Pydantic models *)

Record UserRiskData : Type := mk_UserRiskData {
  u_user_id : string;
  u_ip_address : string;
  transaction_count : Z;
  total_volume : pyfloat;
  u_geolocation : option (list (string * string));
  device_fingerprint : option string;
  kyc_status : string;
  account_age_days : Z;
  failed_login_attempts : Z;
  suspicious_activity_count : Z
}.

Record TransactionRiskData : Type := mk_TransactionRiskData {
  transaction_id : string;
  user_id : string;
  amount : pyfloat;
  asset_type : string;
  timestamp : datetime;
  ip_address : string;
  geolocation : option (list (string * string));
  payment_method : string;
  is_cross_border : bool
}.

Record RiskAssessment : Type := mk_RiskAssessment {
  risk_score : Q;
  risk_level : string;
  flags : list string;
  recommendations : list string;
  confidence : Q
}.

(** ** IP reputation *)

Record reputation : Type := mk_reputation {
  is_tor : bool;
  is_vpn : bool;
  is_proxy : bool;
  is_malicious : bool;
  reputation_score : Q
}.

(** [s.startswith(p)]. *)
Definition startswith (s p : string) : bool := String.prefix p s.

(** [check_ip_reputation]: no statement of the [try] body can raise on a
    string, so the [except] branch is never taken. *)
Definition check_ip_reputation (ip_address : string) : reputation :=
  let reputation :=
    {| is_tor := false; is_vpn := false; is_proxy := false;
       is_malicious := false; reputation_score := 0.5 |} in
  if (startswith ip_address "192.168." || startswith ip_address "10."
      || startswith ip_address "172.") || String.eqb ip_address "127.0.0.1"
  then {| is_tor := is_tor reputation; is_vpn := is_vpn reputation;
          is_proxy := is_proxy reputation;
          is_malicious := is_malicious reputation;
          reputation_score := 0.8 |}
  else reputation.

(** ** Classification, shared by both scorers (lines 241-248, 347-354) *)

Definition determine_risk_level (risk_score : Q) : string :=
  if Qgeb risk_score (critical RISK_THRESHOLDS) then "critical"
  else if Qgeb risk_score (high RISK_THRESHOLDS) then "high"
  else if Qgeb risk_score (medium RISK_THRESHOLDS) then "medium"
  else "low".

(** [min(max(risk_score, 0.0), 1.0)]. *)
Definition clamp (risk_score : Q) : Q := Qmin (Qmax risk_score 0.0) 1.0.

(** ** User scorer *)

(** Each factor of [calculate_user_risk_score] yields its risk value and
    the flags and recommendations it appends. *)
Definition factor : Type := (Q * list string * list string)%type.

(** Risk factor 1, IP reputation (lines 166-172), in the exact reading;
    [B64.ip_factor] is the same on binary64 numbers. *)
Definition ip_factor (ip_reputation : reputation) : factor :=
  let ip_risk := (1.0 - reputation_score ip_reputation)%Q in
  if Qgtb ip_risk 0.7
  then (ip_risk, ["Suspicious IP address"],
        ["Verify user identity through additional channels"])
  else (ip_risk, [], []).

(** Risk factor 2, account age (lines 174-186). *)
Definition account_age_factor (days : Z) : factor :=
  if days <? 1
  then (0.8%Q, ["New account (less than 1 day old)"],
        ["Apply enhanced monitoring for new accounts"])
  else if days <? 7 then (0.6%Q, [], [])
  else if days <? 30 then (0.3%Q, [], [])
  else (0.1%Q, [], []).

(** Risk factor 3, transaction patterns (lines 188-197). *)
Definition transaction_count_factor (n : Z) : factor :=
  if n >? 50 then (0.7%Q, ["High frequency trading pattern"], [])
  else if n >? 20 then (0.4%Q, [], [])
  else (0.1%Q, [], []).

(** Risk factor 4, volume (lines 199-209). *)
Definition volume_factor (v : pyfloat) : factor :=
  if float_gt_int v 100000
  then (0.6%Q, ["High volume transactions"], ["Verify source of funds"])
  else if float_gt_int v 50000 then (0.4%Q, [], [])
  else (0.1%Q, [], []).

(** Risk factor 5, failed login attempts (lines 211-221). *)
Definition login_factor (n : Z) : factor :=
  if n >? 5
  then (0.8%Q, ["Multiple failed login attempts"],
        ["Require password reset and 2FA"])
  else if n >? 2 then (0.4%Q, [], [])
  else (0.1%Q, [], []).

(** Risk factor 6, KYC status (lines 223-234). *)
Definition kyc_factor (status : string) : factor :=
  if String.eqb status "rejected"
  then (0.9%Q, ["KYC verification failed"], ["Manual review required"])
  else if String.eqb status "pending"
  then (0.5%Q, ["KYC verification pending"], [])
  else (0.1%Q, [], []).

Definition f_risk (f : factor) : Q := f.1.1.
Definition f_flags (f : factor) : list string := f.1.2.
Definition f_recs (f : factor) : list string := f.2.

(** The recommendations appended after classification (lines 250-256). *)
Definition level_recommendations (risk_level : string) : list string :=
  if String.eqb risk_level "high" || String.eqb risk_level "critical"
  then ["Block transactions until manual review";
        "Escalate to compliance team"]
  else if String.eqb risk_level "medium"
  then ["Apply enhanced monitoring"; "Require additional verification"]
  else [].

(** The body of [calculate_user_risk_score] from line 166 on, with the
    reputation record of line 164 as an argument. *)
Definition user_risk_assessment (ip_reputation : reputation)
    (user_data : UserRiskData) : RiskAssessment :=
  let f1 := ip_factor ip_reputation in
  let f2 := account_age_factor (account_age_days user_data) in
  let f3 := transaction_count_factor (transaction_count user_data) in
  let f4 := volume_factor (total_volume user_data) in
  let f5 := login_factor (failed_login_attempts user_data) in
  let f6 := kyc_factor (kyc_status user_data) in
  let risk_factors :=
    [ (f_risk f1 * 0.2)%Q; (f_risk f2 * 0.15)%Q; (f_risk f3 * 0.2)%Q;
      (f_risk f4 * 0.15)%Q; (f_risk f5 * 0.1)%Q; (f_risk f6 * 0.2)%Q ] in
  let flags :=
    f_flags f1 ++ f_flags f2 ++ f_flags f3 ++ f_flags f4 ++ f_flags f5
    ++ f_flags f6 in
  let recommendations :=
    f_recs f1 ++ f_recs f2 ++ f_recs f3 ++ f_recs f4 ++ f_recs f5
    ++ f_recs f6 in
  let risk_score := clamp (sum risk_factors) in
  let risk_level := determine_risk_level risk_score in
  {| risk_score := risk_score;
     risk_level := risk_level;
     flags := flags;
     recommendations := recommendations ++ level_recommendations risk_level;
     confidence := 0.8 |}.

(** [calculate_user_risk_score].  The geolocation of lines 159-162 is
    bound to [geo_data] and never read, so the lookup does not reach the
    assessment. *)
Definition calculate_user_risk_score (user_data : UserRiskData)
    : RiskAssessment :=
  let ip_reputation := check_ip_reputation (u_ip_address user_data) in
  user_risk_assessment ip_reputation user_data.

(** ** The history store *)

(** The JSON object written by line 357. *)
Record HistoryRecord : Type := mk_HistoryRecord {
  rec_amount : pyfloat;
  rec_timestamp : datetime;
  rec_risk_score : Q
}.

(** A Redis list value with its time to live in seconds, if one is set. *)
Record redis_list : Type := mk_redis_list {
  items : list HistoryRecord;
  ttl : option Z
}.

Abbreviation redis := (gmap string redis_list).

(** The index arithmetic of LRANGE and LTRIM: negative indices count from
    the end, out of range indices are clipped. *)
Definition list_range {A : Type} (l : list A) (start stop : Z) : list A :=
  let llen := Z.of_nat (length l) in
  let start := if start <? 0 then llen + start else start in
  let stop := if stop <? 0 then llen + stop else stop in
  let start := if start <? 0 then 0 else start in
  if (start >? stop) || (start >=? llen) then []
  else
    let stop := if stop >=? llen then llen - 1 else stop in
    take (Z.to_nat (stop - start + 1)) (drop (Z.to_nat start) l).

Definition lrange (r : redis) (key : string) (start stop : Z)
    : list HistoryRecord :=
  match r !! key with
  | Some e => list_range (items e) start stop
  | None => []
  end.

(** LPUSH: insert at the head, creating the list when the key is absent. *)
Definition lpush (r : redis) (key : string) (v : HistoryRecord) : redis :=
  match r !! key with
  | Some e => <[key := {| items := v :: items e; ttl := ttl e |}]> r
  | None => <[key := {| items := [v]; ttl := None |}]> r
  end.

(** LTRIM: keep the range; a list that becomes empty is removed. *)
Definition ltrim (r : redis) (key : string) (start stop : Z) : redis :=
  match r !! key with
  | Some e =>
      match list_range (items e) start stop with
      | [] => delete key r
      | l => <[key := {| items := l; ttl := ttl e |}]> r
      end
  | None => r
  end.

(** EXPIRE: set the time to live of an existing key. *)
Definition expire (r : redis) (key : string) (seconds : Z) : redis :=
  match r !! key with
  | Some e => <[key := {| items := items e; ttl := Some seconds |}]> r
  | None => r
  end.

Definition history_key (user_id : string) : string :=
  "user_tx_history:" +:+ user_id.

(** The window retained for a user, newest entry first. *)
Definition window (r : redis) (user_id : string) : list HistoryRecord :=
  lrange r (history_key user_id) 0 (-1).

(** ** Transaction scorer *)

(** [x in l] for a string and a list of strings. *)
Definition str_in (x : string) (l : list string) : bool :=
  existsb (String.eqb x) l.

(** Risk factor 1, amount (lines 278-288). *)
Definition amount_factor (a : pyfloat) : factor :=
  if float_gt_int a 50000
  then (0.8%Q, ["Large transaction amount"], ["Verify source of funds"])
  else if float_gt_int a 10000 then (0.5%Q, [], [])
  else (0.2%Q, [], []).

(** Risk factor 2, frequency (lines 290-299). *)
Definition frequency_factor (recent_transactions : list HistoryRecord)
    : factor :=
  if Z.of_nat (length recent_transactions) >=? 5
  then (0.7%Q, ["High transaction frequency"], [])
  else if Z.of_nat (length recent_transactions) >=? 3 then (0.4%Q, [], [])
  else (0.1%Q, [], []).

(** Risk factor 3, cross-border (lines 301-309). *)
Definition cross_border_factor (b : bool) : factor :=
  if b
  then (0.6%Q, ["Cross-border transaction"],
        ["Verify compliance with international regulations"])
  else (0.2%Q, [], []).

(** Risk factor 4, time of day (lines 311-319). *)
Definition time_factor (current_hour : Z) : factor :=
  if (current_hour <? 6) || (current_hour >? 22)
  then (0.5%Q, ["Transaction outside business hours"], [])
  else (0.1%Q, [], []).

(** Risk factor 5, payment method (lines 321-330). *)
Definition payment_factor (method : string) : factor :=
  if str_in method ["crypto"; "anonymous"]
  then (0.6%Q, ["High-risk payment method"], [])
  else if str_in method ["credit_card"; "bank_transfer"]
  then (0.2%Q, [], [])
  else (0.3%Q, [], []).

(** Risk factor 6, asset type (lines 332-340). *)
Definition asset_factor (asset : string) : factor :=
  let high_risk_assets := ["art"; "luxury"; "collectibles"] in
  if str_in asset high_risk_assets
  then (0.5%Q, ["High-risk asset type"], [])
  else (0.2%Q, [], []).

(** Lines 278-354: the assessment, from the request and the entries read
    at line 276.  The scorer adds no recommendation after classification. *)
Definition transaction_risk_assessment
    (recent_transactions : list HistoryRecord)
    (tx_data : TransactionRiskData) : RiskAssessment :=
  let f1 := amount_factor (amount tx_data) in
  let f2 := frequency_factor recent_transactions in
  let f3 := cross_border_factor (is_cross_border tx_data) in
  let f4 := time_factor (hour (timestamp tx_data)) in
  let f5 := payment_factor (payment_method tx_data) in
  let f6 := asset_factor (asset_type tx_data) in
  let risk_factors :=
    [ (f_risk f1 * 0.3)%Q; (f_risk f2 * 0.2)%Q; (f_risk f3 * 0.15)%Q;
      (f_risk f4 * 0.1)%Q; (f_risk f5 * 0.15)%Q; (f_risk f6 * 0.1)%Q ] in
  let risk_score := clamp (sum risk_factors) in
  {| risk_score := risk_score;
     risk_level := determine_risk_level risk_score;
     flags :=
       f_flags f1 ++ f_flags f2 ++ f_flags f3 ++ f_flags f4 ++ f_flags f5
       ++ f_flags f6;
     recommendations :=
       f_recs f1 ++ f_recs f2 ++ f_recs f3 ++ f_recs f4 ++ f_recs f5
       ++ f_recs f6;
     confidence := 0.75 |}.

(** The record of line 357. *)
Definition tx_record (tx_data : TransactionRiskData) (a : RiskAssessment)
    : HistoryRecord :=
  {| rec_amount := amount tx_data;
     rec_timestamp := timestamp tx_data;
     rec_risk_score := risk_score a |}.

(** [calculate_transaction_risk_score]: the assessment and the store
    after the three writes of lines 362-364. *)
Definition calculate_transaction_risk_score (redis_client : redis)
    (tx_data : TransactionRiskData) : RiskAssessment * redis :=
  let user_history_key := history_key (user_id tx_data) in
  let recent_transactions := lrange redis_client user_history_key 0 9 in
  let assessment := transaction_risk_assessment recent_transactions tx_data in
  let r1 := lpush redis_client user_history_key (tx_record tx_data assessment) in
  let r2 := ltrim r1 user_history_key 0 19 in
  let r3 := expire r2 user_history_key (86400 * 30) in
  (assessment, r3).

(** Successive evaluations: the final store and the records written, in
    the order of the calls. *)
Fixpoint evaluate_all (r : redis) (txs : list TransactionRiskData)
    : redis * list HistoryRecord :=
  match txs with
  | [] => (r, [])
  | tx :: rest =>
      let '(a, r') := calculate_transaction_risk_score r tx in
      let '(r'', recs) := evaluate_all r' rest in
      (r'', tx_record tx a :: recs)
  end.

(** ** The scorers in binary64

    The interpreter does not compute with the rationals that the literals
    spell but with IEEE 754 binary64 numbers: a literal is the binary64
    number nearest to it, and [+], [-], [*] round to nearest.  The builtin
    [sum] starts from the integer [0] and adds the items from the left;
    from CPython 3.12 on it carries the compensation term of Neumaier's
    summation along and adds it at the end.  Which of the two the service
    runs depends on its interpreter, so [B64] gives both scorers on
    primitive floats for either summation.  The tests on the fields of the
    request, the flags and the recommendations are those of the factor
    functions above; [lit] is the binary64 value of the literal a factor
    function chose. *)
Module B64.
Import PrimFloat.

(** The binary64 number nearest to a decimal literal: numerator and
    denominator of the literals of this program are integers below 2^53,
    and the division rounds to nearest. *)
Definition lit (q : Q) : float :=
  (of_uint63 (Uint63.of_Z (Qnum q))
   / of_uint63 (Uint63.of_Z (Z.pos (Qden q))))%float.

Inductive summation : Type :=
| LeftToRight
| Compensated.

(** One step of the compensated loop of [sum]: the running total and the
    compensation. *)
Definition neumaier (acc : float * float) (x : float) : float * float :=
  let '(f_result, c) := acc in
  let t := (f_result + x)%float in
  if (abs x <=? abs f_result)%float
  then (t, (c + ((f_result - t) + x))%float)
  else (t, (c + ((x - t) + f_result))%float).

(** The builtin [sum] of a list of floats (start value [0]). *)
Definition sum (alg : summation) (l : list float) : float :=
  match alg with
  | LeftToRight => fold_left add l 0%float
  | Compensated =>
      let '(f_result, c) := fold_left neumaier l (0%float, 0%float) in
      if negb (c =? 0)%float && is_finite c then (f_result + c)%float
      else f_result
  end.

(** [max(a, b)] and [min(a, b)]: the second argument is returned when it
    is strictly greater, respectively smaller, than the first. *)
Definition max (a b : float) : float := if (a <? b)%float then b else a.
Definition min (a b : float) : float := if (b <? a)%float then b else a.

(** [min(max(risk_score, 0.0), 1.0)]. *)
Definition clamp (risk_score : float) : float :=
  min (max risk_score 0.0%float) 1.0%float.

Definition determine_risk_level (risk_score : float) : string :=
  if (lit (critical RISK_THRESHOLDS) <=? risk_score)%float then "critical"
  else if (lit (high RISK_THRESHOLDS) <=? risk_score)%float then "high"
  else if (lit (medium RISK_THRESHOLDS) <=? risk_score)%float then "medium"
  else "low".

Record RiskAssessment : Type := mk_RiskAssessment {
  risk_score : float;
  risk_level : string;
  flags : list string;
  recommendations : list string;
  confidence : float
}.

(** Risk factor 1 of [calculate_user_risk_score] (lines 166-172): the one
    factor whose risk value is computed and whose test is on the computed
    value. *)
Definition ip_factor (ip_reputation : reputation)
    : float * list string * list string :=
  let ip_risk := (1.0 - lit (reputation_score ip_reputation))%float in
  if (0.7 <? ip_risk)%float
  then (ip_risk, ["Suspicious IP address"],
        ["Verify user identity through additional channels"])
  else (ip_risk, [], []).

(** The list [risk_factors] of [calculate_user_risk_score] at line 237. *)
Definition user_risk_factors (f1 : float * list string * list string)
    (f2 f3 f4 f5 f6 : factor) : list float :=
  [ (f1.1.1 * 0.2)%float; (lit (f_risk f2) * 0.15)%float;
    (lit (f_risk f3) * 0.2)%float; (lit (f_risk f4) * 0.15)%float;
    (lit (f_risk f5) * 0.1)%float; (lit (f_risk f6) * 0.2)%float ].

(** Lines 236-266, from the results of the six factors. *)
Definition user_assessment (alg : summation)
    (f1 : float * list string * list string) (f2 f3 f4 f5 f6 : factor)
    : RiskAssessment :=
  let flags :=
    f1.1.2 ++ f_flags f2 ++ f_flags f3 ++ f_flags f4 ++ f_flags f5
    ++ f_flags f6 in
  let recommendations :=
    f1.2 ++ f_recs f2 ++ f_recs f3 ++ f_recs f4 ++ f_recs f5
    ++ f_recs f6 in
  let risk_score := clamp (sum alg (user_risk_factors f1 f2 f3 f4 f5 f6)) in
  let risk_level := determine_risk_level risk_score in
  {| risk_score := risk_score;
     risk_level := risk_level;
     flags := flags;
     recommendations := recommendations ++ level_recommendations risk_level;
     confidence := 0.8 |}.

Definition user_risk_assessment (alg : summation)
    (ip_reputation : reputation) (user_data : UserRiskData)
    : RiskAssessment :=
  user_assessment alg
    (ip_factor ip_reputation)
    (account_age_factor (account_age_days user_data))
    (transaction_count_factor (transaction_count user_data))
    (volume_factor (total_volume user_data))
    (login_factor (failed_login_attempts user_data))
    (kyc_factor (kyc_status user_data)).

Definition calculate_user_risk_score (alg : summation)
    (user_data : UserRiskData) : RiskAssessment :=
  let ip_reputation := check_ip_reputation (u_ip_address user_data) in
  user_risk_assessment alg ip_reputation user_data.

(** The list [risk_factors] of [calculate_transaction_risk_score] at line
    343. *)
Definition transaction_risk_factors (f1 f2 f3 f4 f5 f6 : factor)
    : list float :=
  [ (lit (f_risk f1) * 0.3)%float; (lit (f_risk f2) * 0.2)%float;
    (lit (f_risk f3) * 0.15)%float; (lit (f_risk f4) * 0.1)%float;
    (lit (f_risk f5) * 0.15)%float; (lit (f_risk f6) * 0.1)%float ].

(** Lines 342-374, from the results of the six factors. *)
Definition transaction_assessment (alg : summation)
    (f1 f2 f3 f4 f5 f6 : factor) : RiskAssessment :=
  let risk_score :=
    clamp (sum alg (transaction_risk_factors f1 f2 f3 f4 f5 f6)) in
  {| risk_score := risk_score;
     risk_level := determine_risk_level risk_score;
     flags :=
       f_flags f1 ++ f_flags f2 ++ f_flags f3 ++ f_flags f4 ++ f_flags f5
       ++ f_flags f6;
     recommendations :=
       f_recs f1 ++ f_recs f2 ++ f_recs f3 ++ f_recs f4 ++ f_recs f5
       ++ f_recs f6;
     confidence := 0.75 |}.

(** The assessment of [calculate_transaction_risk_score], from the request
    and the entries read at line 276, of which the scorer uses the number. *)
Definition transaction_risk_assessment (alg : summation)
    (recent_transactions : list HistoryRecord)
    (tx_data : TransactionRiskData) : RiskAssessment :=
  transaction_assessment alg
    (amount_factor (amount tx_data))
    (frequency_factor recent_transactions)
    (cross_border_factor (is_cross_border tx_data))
    (time_factor (hour (timestamp tx_data)))
    (payment_factor (payment_method tx_data))
    (asset_factor (asset_type tx_data)).

End B64.

(** *** The finitely many assessments

    Every factor has two to four outcomes, so a scorer has finitely many
    assessments: a property of all of them is decided by evaluation. *)

Definition ip_outcomes : list (PrimFloat.float * list string * list string) :=
  map (fun score => B64.ip_factor
                      {| is_tor := false; is_vpn := false; is_proxy := false;
                         is_malicious := false; reputation_score := score |})
      [0.5%Q; 0.8%Q].
Definition user_field_outcomes
    : list (factor * (factor * (factor * (factor * factor)))) :=
  list_prod (map account_age_factor [0; 1; 7; 30])
   (list_prod (map transaction_count_factor [51; 21; 0])
    (list_prod (map volume_factor [PosInf; Finite 50001; Finite 0])
     (list_prod (map login_factor [6; 3; 0])
                (map kyc_factor ["rejected"; "pending"; "verified"])))).

Definition user_field_results (u : UserRiskData)
    : factor * (factor * (factor * (factor * factor))) :=
  (account_age_factor (account_age_days u),
   (transaction_count_factor (transaction_count u),
    (volume_factor (total_volume u),
     (login_factor (failed_login_attempts u),
      kyc_factor (kyc_status u))))).

Definition transaction_outcomes
    : list (factor * (factor * (factor * (factor * (factor * factor))))) :=
  list_prod (map amount_factor [PosInf; Finite 10001; Finite 0])
   (list_prod (map (fun n => frequency_factor
                               (replicate n (mk_HistoryRecord NaN
                                               (mk_datetime 0 0 0 0 0 0) 0%Q)))
                   [5%nat; 3%nat; 0%nat])
    (list_prod (map cross_border_factor [true; false])
     (list_prod (map time_factor [0; 12])
      (list_prod (map payment_factor ["crypto"; "credit_card"; "cash"])
                 (map asset_factor ["art"; "bond"]))))).

(** Whether a property holds of every combination of outcomes. *)
Definition every_user_outcome
    (P : PrimFloat.float * list string * list string ->
         factor -> factor -> factor -> factor -> factor -> bool) : bool :=
  forallb (fun f1 =>
    forallb (fun '(f2, (f3, (f4, (f5, f6)))) => P f1 f2 f3 f4 f5 f6)
            user_field_outcomes)
    ip_outcomes.

Definition every_transaction_outcome
    (P : factor -> factor -> factor -> factor -> factor -> factor -> bool)
    : bool :=
  forallb (fun '(f1, (f2, (f3, (f4, (f5, f6))))) => P f1 f2 f3 f4 f5 f6)
          transaction_outcomes.

(** *** The two readings side by side *)

(** Lines 236-266 and 342-374 with the scores read as exact rationals,
    from the results of the six factors: [user_risk_assessment] and
    [transaction_risk_assessment] above, with the factors as arguments. *)
Definition exact_user_assessment (f1 f2 f3 f4 f5 f6 : factor)
    : RiskAssessment :=
  let risk_factors :=
    [ (f_risk f1 * 0.2)%Q; (f_risk f2 * 0.15)%Q; (f_risk f3 * 0.2)%Q;
      (f_risk f4 * 0.15)%Q; (f_risk f5 * 0.1)%Q; (f_risk f6 * 0.2)%Q ] in
  let flags :=
    f_flags f1 ++ f_flags f2 ++ f_flags f3 ++ f_flags f4 ++ f_flags f5
    ++ f_flags f6 in
  let recommendations :=
    f_recs f1 ++ f_recs f2 ++ f_recs f3 ++ f_recs f4 ++ f_recs f5
    ++ f_recs f6 in
  let risk_score := clamp (sum risk_factors) in
  let risk_level := determine_risk_level risk_score in
  {| risk_score := risk_score;
     risk_level := risk_level;
     flags := flags;
     recommendations := recommendations ++ level_recommendations risk_level;
     confidence := 0.8 |}.

Definition exact_transaction_assessment (f1 f2 f3 f4 f5 f6 : factor)
    : RiskAssessment :=
  let risk_factors :=
    [ (f_risk f1 * 0.3)%Q; (f_risk f2 * 0.2)%Q; (f_risk f3 * 0.15)%Q;
      (f_risk f4 * 0.1)%Q; (f_risk f5 * 0.15)%Q; (f_risk f6 * 0.1)%Q ] in
  let risk_score := clamp (sum risk_factors) in
  {| risk_score := risk_score;
     risk_level := determine_risk_level risk_score;
     flags :=
       f_flags f1 ++ f_flags f2 ++ f_flags f3 ++ f_flags f4 ++ f_flags f5
       ++ f_flags f6;
     recommendations :=
       f_recs f1 ++ f_recs f2 ++ f_recs f3 ++ f_recs f4 ++ f_recs f5
       ++ f_recs f6;
     confidence := 0.75 |}.

(** Whether a binary64 assessment has the level, the flags and the
    recommendations of an exact one, and a score within 1e-15 of the
    binary64 number nearest to the exact score. *)
Definition agrees (a : RiskAssessment) (b : B64.RiskAssessment) : bool :=
  String.eqb (B64.risk_level b) (risk_level a)
  && (bool_decide (B64.flags b = flags a)
  && (bool_decide (B64.recommendations b = recommendations a)
  && PrimFloat.leb
       (PrimFloat.abs
          (PrimFloat.sub (B64.risk_score b)
                         (B64.lit (Qred (risk_score a)))))
       (B64.lit (1 # 1000000000000000)))).

(** ** Statistics endpoint *)

Inductive json : Type :=
| JStr (s : string)
| JInt (n : Z)
| JNum (q : Q).

(** [np.mean] of a non-empty list. *)
Definition mean (l : list Q) : Q :=
  (sum l / inject_Z (Z.of_nat (length l)))%Q.

(** The loop of lines 471-477: the scores in list order and the number
    of them at or above the [high] threshold. *)
Definition collect_scores (transactions : list HistoryRecord)
    : list Q * Z :=
  fold_left
    (fun '(risk_scores, high_risk_count) tx_data =>
       let risk_score := rec_risk_score tx_data in
       (risk_scores ++ [risk_score],
        if Qgeb risk_score (high RISK_THRESHOLDS)
        then high_risk_count + 1 else high_risk_count))
    transactions ([], 0).

(** [risk_scores[0]] and [risk_scores[-1]]; both are read only after
    [len(risk_scores) > 1] has been found true. *)
Definition first_score (l : list Q) : Q := List.nth 0 l 0%Q.
Definition last_score (l : list Q) : Q := List.last l 0%Q.

(** The body of [get_user_risk_stats]: the response as an ordered list of
    keys and values. *)
Definition get_user_risk_stats (redis_client : redis) (user_id : string)
    : list (string * json) :=
  let transactions := lrange redis_client (history_key user_id) 0 (-1) in
  match transactions with
  | [] =>
      [ ("user_id", JStr user_id);
        ("transaction_count", JInt 0);
        ("average_risk_score", JNum 0.0);
        ("high_risk_transactions", JInt 0) ]
  | _ =>
      let '(risk_scores, high_risk_count) := collect_scores transactions in
      [ ("user_id", JStr user_id);
        ("transaction_count", JInt (Z.of_nat (length transactions)));
        ("average_risk_score",
         JNum (match risk_scores with [] => 0.0 | _ => mean risk_scores end));
        ("high_risk_transactions", JInt high_risk_count);
        ("risk_trend",
         JStr (if (Z.of_nat (length risk_scores) >? 1)
                  && Qgtb (first_score risk_scores) (last_score risk_scores)
               then "increasing" else "stable")) ]
  end.

(** Reading a key of a response. *)
Fixpoint response_get (k : string) (d : list (string * json)) : option json :=
  match d with
  | [] => None
  | (k', v) :: rest => if String.eqb k k' then Some v else response_get k rest
  end.

(** ** Vocabulary of the statements *)

(** A level [lvl] is the class of score [s] for the cut points
    [med < hi < crit]: the highest cut point met decides, and a score under
    [med] is "low". *)
Definition classified_by (med hi crit : Q) (s : Q) (lvl : string) : Prop :=
  ((crit <= s)%Q -> lvl = "critical") /\
  ((hi <= s < crit)%Q -> lvl = "high") /\
  ((med <= s < hi)%Q -> lvl = "medium") /\
  ((s < med)%Q -> lvl = "low").

(** The cut points as the specification lists them. *)
Definition spec_classified (s : Q) (lvl : string) : Prop :=
  classified_by 0.3 0.6 0.8 s lvl.

(** The cut points of [RISK_THRESHOLDS]. *)
Definition code_classified (s : Q) (lvl : string) : Prop :=
  classified_by 0.6 0.8 0.95 s lvl.

(** Everything a factor of the user scorer can recommend, the reputation
    factor apart, and everything it can flag. *)
Definition user_factor_recommendations : list string :=
  [ "Apply enhanced monitoring for new accounts"; "Verify source of funds";
    "Require password reset and 2FA"; "Manual review required" ].

Definition user_factor_flags : list string :=
  [ "New account (less than 1 day old)"; "High frequency trading pattern";
    "High volume transactions"; "Multiple failed login attempts";
    "KYC verification failed"; "KYC verification pending" ].

Definition transaction_recommendations : list string :=
  [ "Verify source of funds";
    "Verify compliance with international regulations" ].

(** Requests that differ from a given one in a single field. *)
Definition with_account_age_days (u : UserRiskData) (d : Z) : UserRiskData :=
  {| u_user_id := u_user_id u; u_ip_address := u_ip_address u;
     transaction_count := transaction_count u;
     total_volume := total_volume u; u_geolocation := u_geolocation u;
     device_fingerprint := device_fingerprint u;
     kyc_status := kyc_status u; account_age_days := d;
     failed_login_attempts := failed_login_attempts u;
     suspicious_activity_count := suspicious_activity_count u |}.

Definition with_amount (tx : TransactionRiskData) (a : pyfloat)
    : TransactionRiskData :=
  {| transaction_id := transaction_id tx; user_id := user_id tx; amount := a;
     asset_type := asset_type tx; timestamp := timestamp tx;
     ip_address := ip_address tx; geolocation := geolocation tx;
     payment_method := payment_method tx;
     is_cross_border := is_cross_border tx |}.

(** The time to live of a user's window. *)
Definition window_ttl (r : redis) (user_id : string) : option Z :=
  r !! history_key user_id ≫= ttl.

(** *** Private and loopback addresses

    The reading of "private/loopback addresses" that the statements use:
    the dotted-quad IPv4 addresses of 10.0.0.0/8, 172.16.0.0/12 and
    192.168.0.0/16 (private) and of 127.0.0.0/8 (loopback). *)

Definition digit_value (c : Ascii.ascii) : option Z :=
  let n := Z.of_N (Ascii.N_of_ascii c) in
  if (48 <=? n) && (n <=? 57) then Some (n - 48) else None.

Fixpoint decimal (s : string) (acc : Z) : option Z :=
  match s with
  | EmptyString => Some acc
  | String c s' =>
      match digit_value c with
      | Some d => decimal s' (10 * acc + d)
      | None => None
      end
  end.

Definition octet (s : string) : option Z :=
  match s with
  | EmptyString => None
  | _ =>
      match decimal s 0 with
      | Some n => if n <=? 255 then Some n else None
      | None => None
      end
  end.

Fixpoint split_dots (s cur : string) : list string :=
  match s with
  | EmptyString => [cur]
  | String c s' =>
      if Ascii.eqb c "."%char then cur :: split_dots s' ""
      else split_dots s' (cur +:+ String c "")
  end.

Definition parse_ipv4 (s : string) : option (Z * Z * Z * Z) :=
  match split_dots s "" with
  | [a; b; c; d] =>
      match octet a, octet b, octet c, octet d with
      | Some a, Some b, Some c, Some d => Some (a, b, c, d)
      | _, _, _, _ => None
      end
  | _ => None
  end.

Definition spec_private_or_loopback (ip : string) : bool :=
  match parse_ipv4 ip with
  | Some (a, b, _, _) =>
      (a =? 10) || ((a =? 172) && (16 <=? b) && (b <=? 31))
      || ((a =? 192) && (b =? 168)) || (a =? 127)
  | None => false
  end.

(** ** Sample requests *)

Definition noon : datetime := mk_datetime 2025 3 14 12 0 0.
Definition two_am : datetime := mk_datetime 2025 3 14 2 0 0.

(** The boundary user of the specification, from a public address. *)
Definition boundary_user : UserRiskData :=
  {| u_user_id := "u1"; u_ip_address := "8.8.8.8"; transaction_count := 60;
     total_volume := Finite 150000; u_geolocation := None;
     device_fingerprint := None; kyc_status := "rejected";
     account_age_days := 0; failed_login_attempts := 6;
     suspicious_activity_count := 0 |}.

(** A request that leaves every optional field at its default. *)
Definition default_user : UserRiskData :=
  {| u_user_id := "u2"; u_ip_address := "8.8.8.8"; transaction_count := 0;
     total_volume := Finite 0; u_geolocation := None;
     device_fingerprint := None; kyc_status := "pending";
     account_age_days := 0; failed_login_attempts := 0;
     suspicious_activity_count := 0 |}.

Definition reputation_of (score : Q) : reputation :=
  {| is_tor := false; is_vpn := false; is_proxy := false;
     is_malicious := false; reputation_score := score |}.

(** The transaction of the specification's scenario. *)
Definition art_purchase : TransactionRiskData :=
  {| transaction_id := "t1"; user_id := "u1"; amount := Finite 60000;
     asset_type := "art"; timestamp := two_am; ip_address := "8.8.8.8";
     geolocation := None; payment_method := "crypto";
     is_cross_border := true |}.

Definition small_purchase : TransactionRiskData :=
  {| transaction_id := "t2"; user_id := "u1"; amount := Finite 100;
     asset_type := "bond"; timestamp := noon; ip_address := "8.8.8.8";
     geolocation := None; payment_method := "credit_card";
     is_cross_border := false |}.

(** The store after the art purchase, and after a small purchase that
    follows it. *)
Definition store_after_art : redis :=
  (calculate_transaction_risk_score ∅ art_purchase).2.

Definition store_after_both : redis :=
  (calculate_transaction_risk_score store_after_art small_purchase).2.

Definition art_record : HistoryRecord :=
  tx_record art_purchase (calculate_transaction_risk_score ∅ art_purchase).1.

Definition small_record : HistoryRecord :=
  tx_record small_purchase
    (calculate_transaction_risk_score store_after_art small_purchase).1.

(** ** Stores the service can leave behind *)

(** A store is reachable when it results from the empty store by
    transaction evaluations, in any order and for any users, and by the
    removal of keys, which is what Redis does when a time to live runs
    out. *)
Inductive reachable : redis -> Prop :=
| reachable_empty : reachable ∅
| reachable_evaluate (r : redis) (tx : TransactionRiskData) :
    reachable r -> reachable (calculate_transaction_risk_score r tx).2
| reachable_expired (r : redis) (key : string) :
    reachable r -> reachable (delete key r).

(** What every stored window satisfies in a reachable store. *)
Definition window_ok (e : redis_list) : Prop :=
  items e <> [] /\
  (length (items e) <= 20)%nat /\
  Forall (fun h => (0 < rec_risk_score h < 0.8)%Q) (items e) /\
  ttl e = Some (86400 * 30).

Definition with_ip_address (u : UserRiskData) (ip : string) : UserRiskData :=
  {| u_user_id := u_user_id u; u_ip_address := ip;
     transaction_count := transaction_count u;
     total_volume := total_volume u; u_geolocation := u_geolocation u;
     device_fingerprint := device_fingerprint u;
     kyc_status := kyc_status u; account_age_days := account_age_days u;
     failed_login_attempts := failed_login_attempts u;
     suspicious_activity_count := suspicious_activity_count u |}.

Definition with_kyc_status (u : UserRiskData) (status : string)
    : UserRiskData :=
  {| u_user_id := u_user_id u; u_ip_address := u_ip_address u;
     transaction_count := transaction_count u;
     total_volume := total_volume u; u_geolocation := u_geolocation u;
     device_fingerprint := device_fingerprint u;
     kyc_status := status; account_age_days := account_age_days u;
     failed_login_attempts := failed_login_attempts u;
     suspicious_activity_count := suspicious_activity_count u |}.

(** ** The chat agent's conversation store

    Shallow embedding of [chat] and [clear_chat_history] of
    [ai-services/omni-axis-chat-agent/main.py].  The language model and the
    retrieval chain are arguments: [qa_chain] receives the messages put in
    the memory and the question, [llm] receives the prompt, and either
    returns the answer or [None] when the call raises.  [vectorstore] tells
    whether the vector store was built at start-up.  The three readings of
    [datetime.now()] are arguments too, as the text they are formatted to.
    The Redis value of a session is the list that [json.dumps] encoded,
    with the time to live that SETEX always sets; the calls to Redis
    themselves succeed. *)
Module Chat.

Record exchange : Type := mk_exchange {
  human : string;
  ai : string;
  timestamp : string
}.

Record redis_string : Type := mk_redis_string {
  value : list exchange;
  ttl : Z
}.

Abbreviation redis := (gmap string redis_string).

Record ChatMessage : Type := mk_ChatMessage {
  message : string;
  user_id : string;
  session_id : option string
}.

Record ChatResponse : Type := mk_ChatResponse {
  reply : string;
  response_session_id : string;
  response_timestamp : string
}.

(** The messages of the conversation memory. *)
Inductive memory_message : Type :=
| HumanMessage (content : string)
| AIMessage (content : string).

(** The outcome of a request: the response, or the status code of the
    [HTTPException] raised by the handler. *)
Inductive outcome (A : Type) : Type :=
| Ok (a : A)
| HttpError (status_code : Z).
Arguments Ok {A} a.
Arguments HttpError {A} status_code.

Definition newline : string := String (Ascii.ascii_of_nat 10) "".

Definition context : string :=
  "You are a helpful assistant for Omni Axis, a real-world asset tokenization platform. Help users understand tokenization, trading, and using the platform.".

Definition history_key (session_id : string) : string :=
  "chat_history:" +:+ session_id.

(** [l[-10:]]. *)
Definition last_ten {A : Type} (l : list A) : list A :=
  drop (length l - 10) l.

(** The messages added to the memory by lines 148-150. *)
Definition memory_of (conversation_history : list exchange)
    : list memory_message :=
  flat_map (fun e => [HumanMessage (human e); AIMessage (ai e)])
           (last_ten conversation_history).

(** [redis_client.get] followed by [json.loads], or the empty list. *)
Definition load_history (r : redis) (key : string) : list exchange :=
  match r !! key with
  | Some v => value v
  | None => []
  end.

(** The body of [chat]. *)
Definition chat
    (qa_chain : list memory_message -> string -> option string)
    (llm : string -> option string) (vectorstore : bool)
    (now_timestamp now_isoformat now_response : string)
    (r : redis) (chat_request : ChatMessage)
    : outcome ChatResponse * redis :=
  let generated := user_id chat_request +:+ "_" +:+ now_timestamp in
  let session_id :=
    match session_id chat_request with
    | Some "" | None => generated
    | Some s => s
    end in
  let history_key := history_key session_id in
  let conversation_history := load_history r history_key in
  let memory := memory_of conversation_history in
  let answer :=
    if vectorstore then qa_chain memory (message chat_request)
    else llm (context +:+ newline +:+ newline +:+ "User: "
              +:+ message chat_request +:+ newline +:+ "Assistant:") in
  match answer with
  | None => (HttpError 500, r)
  | Some reply =>
      let conversation_history :=
        conversation_history
        ++ [ {| human := message chat_request; ai := reply;
                timestamp := now_isoformat |} ] in
      (Ok {| reply := reply; response_session_id := session_id;
             response_timestamp := now_response |},
       <[history_key := {| value := conversation_history; ttl := 86400 |}]> r)
  end.

(** The body of [clear_chat_history]. *)
Definition clear_chat_history (r : redis) (session_id : string)
    : string * redis :=
  ("Chat history cleared successfully", delete (history_key session_id) r).

(** Successive requests of one session, each with its own clock
    readings: the outcomes and the final store. *)
Fixpoint chat_all
    (qa_chain : list memory_message -> string -> option string)
    (llm : string -> option string) (vectorstore : bool)
    (r : redis) (requests : list (string * string * string * ChatMessage))
    : list (outcome ChatResponse) * redis :=
  match requests with
  | [] => ([], r)
  | (t1, t2, t3, q) :: rest =>
      let '(o, r') := chat qa_chain llm vectorstore t1 t2 t3 r q in
      let '(os, r'') := chat_all qa_chain llm vectorstore r' rest in
      (o :: os, r'')
  end.

Definition succeeded {A : Type} (o : outcome A) : Prop :=
  match o with
  | Ok _ => True
  | HttpError _ => False
  end.

(** The exchanges that a sequence of requests leaves in the store, from
    the requests and their outcomes: one for each request that was
    answered, with the user's message, the reply of the response and the
    second clock reading of the request; none for a request that failed. *)
Fixpoint appended
    (requests : list (string * string * string * ChatMessage))
    (outcomes : list (outcome ChatResponse)) : list exchange :=
  match requests, outcomes with
  | (_, now_isoformat, _, q) :: requests, Ok resp :: outcomes =>
      {| human := message q; ai := reply resp; timestamp := now_isoformat |}
      :: appended requests outcomes
  | _ :: requests, HttpError _ :: outcomes => appended requests outcomes
  | _, _ => []
  end.

End Chat.

(** ** The document agent's entity extraction

    Shallow embedding of [extract_entities_from_text] of
    [ai-services/omni-axis-nlp-agent/main.py].  The libraries are
    arguments: [nlp_en text] is the list of the entities of the spaCy
    document, each with its text and its label, or [None] when the call
    raises; [re_search pattern text] is group 1 of the first match of
    [re.search] with [re.IGNORECASE], if there is a match; [lower] and
    [strip] are the string methods. *)
Module Nlp.

(** The values held by the [entities] dictionary. *)
Inductive pyvalue : Type :=
| PNone
| PStr (s : string)
| PFloat (q : Q).

Definition of_option (o : option string) : pyvalue :=
  match o with
  | Some s => PStr s
  | None => PNone
  end.

Record ExtractedEntities : Type := mk_ExtractedEntities {
  name : option string;
  address : option string;
  asset_type : option string;
  certificate_id : option string;
  date : option string;
  amount : option string;
  location : option string;
  confidence : Q
}.

Definition cert_patterns : list string :=
  [ "(?:certificate|cert|id|number|no\.?)\s*:?\s*([A-Z0-9\-]+)";
    "([A-Z]{2,}\d{4,})";
    "(\d{4,}[A-Z]{2,})" ].

Definition amount_patterns : list string :=
  [ "(?:USD|EUR|GBP|\$|€|£)\s*([0-9,]+(?:\.[0-9]{2})?)";
    "([0-9,]+(?:\.[0-9]{2})?)\s*(?:USD|EUR|GBP|dollars?|euros?|pounds?)" ].

Definition asset_types : list string :=
  [ "real estate"; "property"; "land"; "building"; "house"; "apartment";
    "art"; "painting"; "sculpture"; "artwork"; "collectible";
    "gold"; "silver"; "commodity"; "oil"; "gas";
    "watch"; "jewelry"; "luxury"; "vintage" ].

Definition address_pattern : string :=
  "(\d+\s+[A-Za-z\s]+(?:Street|St|Avenue|Ave|Road|Rd|Boulevard|Blvd|Drive|Dr|Lane|Ln)[^,\n]*(?:,\s*[A-Za-z\s]+)*)".

(** [sub in s] for strings. *)
Fixpoint contains (sub s : string) : bool :=
  String.prefix sub s
  || match s with
     | EmptyString => false
     | String _ rest => contains sub rest
     end.

(** The loop of lines 140-146: the texts of the entities by label. *)
Definition by_label (ents : list (string * string))
    : list string * list string * list string :=
  fold_left
    (fun '(names, locations, dates) '(text, label) =>
       if String.eqb label "PERSON" then (names ++ [text], locations, dates)
       else if str_in label ["GPE"; "LOC"]
       then (names, locations ++ [text], dates)
       else if String.eqb label "DATE" then (names, locations, dates ++ [text])
       else (names, locations, dates))
    ents ([], [], []).

(** The loops of lines 157-161 and 169-173: the first pattern that
    matches decides. *)
Fixpoint search_first (re_search : string -> string -> option string)
    (patterns : list string) (text : string) : option string :=
  match patterns with
  | [] => None
  | pattern :: rest =>
      match re_search pattern text with
      | Some group => Some group
      | None => search_first re_search rest text
      end
  end.

(** The loop of lines 184-187. *)
Definition first_asset_type (text_lower : string) : option string :=
  List.find (fun asset_type => contains asset_type text_lower) asset_types.

(** [v is not None and v != ""]. *)
Definition counted (v : pyvalue) : bool :=
  match v with
  | PNone => false
  | PStr s => negb (String.eqb s "")
  | PFloat _ => true
  end.

Definition extract_entities_from_text
    (nlp_en : string -> option (list (string * string)))
    (re_search : string -> string -> option string)
    (lower strip : string -> string) (text : string) : ExtractedEntities :=
  match nlp_en text with
  | None =>
      {| name := None; address := None; asset_type := None;
         certificate_id := None; date := None; amount := None;
         location := None; confidence := 0.0 |}
  | Some ents =>
      let '(names, locations, dates) := by_label ents in
      let certificate_id := search_first re_search cert_patterns text in
      let amount := search_first re_search amount_patterns text in
      let asset_type := first_asset_type (lower text) in
      let address :=
        match re_search address_pattern text with
        | Some group => Some (strip group)
        | None => None
        end in
      let name := head names in
      let location := head locations in
      let date := head dates in
      let values :=
        [ of_option name; of_option address; of_option asset_type;
          of_option certificate_id; of_option date; of_option amount;
          of_option location; PFloat 0.0 ] in
      let extracted_count :=
        Z.of_nat (length (List.filter counted values)) in
      {| name := name; address := address; asset_type := asset_type;
         certificate_id := certificate_id; date := date; amount := amount;
         location := location;
         confidence := Qmin (inject_Z extracted_count / 6.0) 1.0 |}
  end.

(** A field holds a non-empty string. *)
Definition filled (o : option string) : bool := counted (of_option o).

(** The number of the seven fields that hold a non-empty string. *)
Definition fields_found (e : ExtractedEntities) : Z :=
  Z.of_nat
    (length
       (List.filter filled
          [ name e; address e; asset_type e; certificate_id e; date e;
            amount e; location e ])).

End Nlp.

(** ** Proof automation *)

Ltac factor_cases :=
  repeat match goal with
         | |- context [if ?b then _ else _] => destruct b eqn:?
         end;
  cbn [f_risk f_flags f_recs fst snd].


(** Inclusion of what a factor appends in a fixed list: one case per
    branch of the factor. *)
Ltac incl_cases :=
  factor_cases; intros x Hx; cbn in Hx |- *; tauto.

(** Turns the boolean comparisons on [Z] among the hypotheses into
    propositions, for [lia]. *)
(** Membership of a factor's result in the list of its outcomes. *)
Ltac outcome_cases :=
  repeat match goal with
         | |- context [if ?b then _ else _] => destruct b
         end;
  vm_compute; repeat (first [left; reflexivity | right]).

Ltac zbool :=
  repeat match goal with
         | H : (_ >? _) = _ |- _ => rewrite Z.gtb_ltb in H
         | H : (_ >=? _) = _ |- _ => rewrite Z.geb_leb in H
         | H : (_ <? _) = true |- _ => apply Z.ltb_lt in H
         | H : (_ <? _) = false |- _ => apply Z.ltb_ge in H
         | H : (_ <=? _) = true |- _ => apply Z.leb_le in H
         | H : (_ <=? _) = false |- _ => apply Z.leb_gt in H
         end.

(** * Properties *)

(** ** Arithmetic helpers *)

Lemma Qgeb_true (a b : Q) : Qgeb a b = true <-> (b <= a)%Q.
Proof. unfold Qgeb. apply Qle_bool_iff. Qed.

Lemma Qgeb_false (a b : Q) : Qgeb a b = false <-> (a < b)%Q.
Proof.
  unfold Qgeb. rewrite <- not_true_iff_false, Qle_bool_iff.
  split; [apply Qnot_le_lt | apply Qlt_not_le].
Qed.

Lemma Qgtb_true (a b : Q) : Qgtb a b = true <-> (b < a)%Q.
Proof.
  unfold Qgtb. rewrite negb_true_iff, <- not_true_iff_false, Qle_bool_iff.
  split; [apply Qnot_le_lt | apply Qlt_not_le].
Qed.

Lemma Qgtb_false (a b : Q) : Qgtb a b = false <-> (a <= b)%Q.
Proof. unfold Qgtb. rewrite negb_false_iff. apply Qle_bool_iff. Qed.

Lemma clamp_range (s : Q) : (0 <= clamp s <= 1)%Q.
Proof.
  unfold clamp.
  destruct (Q.max_spec s 0.0) as [[? Hm]|[? Hm]],
           (Q.min_spec (Qmax s 0.0) 1.0) as [[? Hn]|[? Hn]];
    rewrite Hn; rewrite ?Hm in *; lra.
Qed.

Lemma clamp_id (s : Q) : (0 <= s <= 1)%Q -> (clamp s == s)%Q.
Proof.
  intros [? ?]. unfold clamp.
  destruct (Q.max_spec s 0.0) as [[? Hm]|[? Hm]],
           (Q.min_spec (Qmax s 0.0) 1.0) as [[? Hn]|[? Hn]];
    rewrite Hn; rewrite ?Hm in *; lra.
Qed.

Lemma clamp_mono (a b : Q) : (a <= b)%Q -> (clamp a <= clamp b)%Q.
Proof.
  intros H. unfold clamp.
  apply Q.min_le_compat_r, Q.max_le_compat_r, H.
Qed.

Lemma sum6 (a b c d e f : Q) :
  sum [a; b; c; d; e; f] = (0 + a + b + c + d + e + f)%Q.
Proof. reflexivity. Qed.

(** ** Classification *)

Lemma determine_risk_level_classified (s : Q) :
  classified_by 0.6 0.8 0.95 s (determine_risk_level s).
Proof.
  unfold classified_by, determine_risk_level; cbn [critical high medium RISK_THRESHOLDS].
  destruct (Qgeb s 0.95) eqn:Hc; [apply Qgeb_true in Hc | apply Qgeb_false in Hc];
  (destruct (Qgeb s 0.8) eqn:Hh; [apply Qgeb_true in Hh | apply Qgeb_false in Hh]);
  (destruct (Qgeb s 0.6) eqn:Hm; [apply Qgeb_true in Hm | apply Qgeb_false in Hm]);
  repeat split; intros; try reflexivity; exfalso; lra.
Qed.

(** Below the [high] threshold only two levels remain. *)
Lemma determine_risk_level_below_high (s : Q) :
  (s < 0.8)%Q ->
  determine_risk_level s = "medium" \/ determine_risk_level s = "low".
Proof.
  intros Hs. destruct (determine_risk_level_classified s) as (_ & _ & Hm & Hl).
  destruct (Qlt_le_dec s 0.6); [right; auto | left; apply Hm; lra].
Qed.

(** ** Ranges of the factors *)

Lemma check_ip_reputation_score (ip : string) :
  reputation_score (check_ip_reputation ip) = 0.5%Q \/
  reputation_score (check_ip_reputation ip) = 0.8%Q.
Proof. unfold check_ip_reputation. factor_cases; auto. Qed.

Lemma ip_factor_checked (ip : string) :
  ip_factor (check_ip_reputation ip) = ((1.0 - 0.5)%Q, [], []) \/
  ip_factor (check_ip_reputation ip) = ((1.0 - 0.8)%Q, [], []).
Proof.
  unfold ip_factor.
  destruct (check_ip_reputation_score ip) as [-> | ->]; vm_compute; auto.
Qed.

Lemma account_age_factor_range (d : Z) :
  (0.1 <= f_risk (account_age_factor d) <= 0.8)%Q.
Proof. unfold account_age_factor. factor_cases; lra. Qed.

Lemma transaction_count_factor_range (n : Z) :
  (0.1 <= f_risk (transaction_count_factor n) <= 0.7)%Q.
Proof. unfold transaction_count_factor. factor_cases; lra. Qed.

Lemma volume_factor_range (v : pyfloat) :
  (0.1 <= f_risk (volume_factor v) <= 0.6)%Q.
Proof. unfold volume_factor. factor_cases; lra. Qed.

Lemma login_factor_range (n : Z) :
  (0.1 <= f_risk (login_factor n) <= 0.8)%Q.
Proof. unfold login_factor. factor_cases; lra. Qed.

Lemma kyc_factor_range (s : string) :
  (0.1 <= f_risk (kyc_factor s) <= 0.9)%Q.
Proof. unfold kyc_factor. factor_cases; lra. Qed.

Lemma amount_factor_range (a : pyfloat) :
  (0.2 <= f_risk (amount_factor a) <= 0.8)%Q.
Proof. unfold amount_factor. factor_cases; lra. Qed.

Lemma frequency_factor_range (l : list HistoryRecord) :
  (0.1 <= f_risk (frequency_factor l) <= 0.7)%Q.
Proof. unfold frequency_factor. factor_cases; lra. Qed.

Lemma cross_border_factor_range (b : bool) :
  (0.2 <= f_risk (cross_border_factor b) <= 0.6)%Q.
Proof. destruct b; cbn; lra. Qed.

Lemma time_factor_range (h : Z) :
  (0.1 <= f_risk (time_factor h) <= 0.5)%Q.
Proof. unfold time_factor. factor_cases; lra. Qed.

Lemma payment_factor_range (m : string) :
  (0.2 <= f_risk (payment_factor m) <= 0.6)%Q.
Proof. unfold payment_factor. factor_cases; lra. Qed.

Lemma asset_factor_range (a : string) :
  (0.2 <= f_risk (asset_factor a) <= 0.5)%Q.
Proof. unfold asset_factor. cbv zeta. factor_cases; lra. Qed.

(** The unclamped sums of the two scorers. *)
Lemma user_sum_range (ip : string) (u : UserRiskData) :
  let f1 := ip_factor (check_ip_reputation ip) in
  (0 <= sum [ (f_risk f1 * 0.2)%Q;
              (f_risk (account_age_factor (account_age_days u)) * 0.15)%Q;
              (f_risk (transaction_count_factor (transaction_count u)) * 0.2)%Q;
              (f_risk (volume_factor (total_volume u)) * 0.15)%Q;
              (f_risk (login_factor (failed_login_attempts u)) * 0.1)%Q;
              (f_risk (kyc_factor (kyc_status u)) * 0.2)%Q ] <= 0.71)%Q.
Proof.
  intros f1. rewrite sum6.
  assert (0.2 <= f_risk f1 <= 0.5)%Q as H1.
  { subst f1. destruct (ip_factor_checked ip) as [-> | ->]; cbn; lra. }
  pose proof (account_age_factor_range (account_age_days u)).
  pose proof (transaction_count_factor_range (transaction_count u)).
  pose proof (volume_factor_range (total_volume u)).
  pose proof (login_factor_range (failed_login_attempts u)).
  pose proof (kyc_factor_range (kyc_status u)).
  lra.
Qed.

Lemma transaction_sum_range (l : list HistoryRecord) (tx : TransactionRiskData) :
  (0 <= sum [ (f_risk (amount_factor (amount tx)) * 0.3)%Q;
              (f_risk (frequency_factor l) * 0.2)%Q;
              (f_risk (cross_border_factor (is_cross_border tx)) * 0.15)%Q;
              (f_risk (time_factor (hour (timestamp tx))) * 0.1)%Q;
              (f_risk (payment_factor (payment_method tx)) * 0.15)%Q;
              (f_risk (asset_factor (asset_type tx)) * 0.1)%Q ] <= 0.66)%Q.
Proof.
  rewrite sum6.
  pose proof (amount_factor_range (amount tx)).
  pose proof (frequency_factor_range l).
  pose proof (cross_border_factor_range (is_cross_border tx)).
  pose proof (time_factor_range (hour (timestamp tx))).
  pose proof (payment_factor_range (payment_method tx)).
  pose proof (asset_factor_range (asset_type tx)).
  lra.
Qed.

(** ** What the factors can flag and recommend *)

Lemma account_age_recs (d : Z) :
  incl (f_recs (account_age_factor d)) user_factor_recommendations.
Proof. unfold account_age_factor. incl_cases. Qed.

Lemma transaction_count_recs (n : Z) :
  incl (f_recs (transaction_count_factor n)) user_factor_recommendations.
Proof. unfold transaction_count_factor. incl_cases. Qed.

Lemma volume_recs (v : pyfloat) :
  incl (f_recs (volume_factor v)) user_factor_recommendations.
Proof. unfold volume_factor. incl_cases. Qed.

Lemma login_recs (n : Z) :
  incl (f_recs (login_factor n)) user_factor_recommendations.
Proof. unfold login_factor. incl_cases. Qed.

Lemma kyc_recs (s : string) :
  incl (f_recs (kyc_factor s)) user_factor_recommendations.
Proof. unfold kyc_factor. incl_cases. Qed.

Lemma account_age_flags (d : Z) :
  incl (f_flags (account_age_factor d)) user_factor_flags.
Proof. unfold account_age_factor. incl_cases. Qed.

Lemma transaction_count_flags (n : Z) :
  incl (f_flags (transaction_count_factor n)) user_factor_flags.
Proof. unfold transaction_count_factor. incl_cases. Qed.

Lemma volume_flags (v : pyfloat) :
  incl (f_flags (volume_factor v)) user_factor_flags.
Proof. unfold volume_factor. incl_cases. Qed.

Lemma login_flags (n : Z) :
  incl (f_flags (login_factor n)) user_factor_flags.
Proof. unfold login_factor. incl_cases. Qed.

Lemma kyc_flags (s : string) :
  incl (f_flags (kyc_factor s)) user_factor_flags.
Proof. unfold kyc_factor. incl_cases. Qed.

Create HintDb factors.
#[local] Hint Resolve incl_nil_l account_age_recs transaction_count_recs
  volume_recs login_recs kyc_recs account_age_flags transaction_count_flags
  volume_flags login_flags kyc_flags : factors.

(** With the reputation of [check_ip_reputation] the first factor is
    silent, so the factor recommendations and flags of a user assessment
    come from the other five. *)
Lemma user_recommendations_split (u : UserRiskData) :
  exists l, incl l user_factor_recommendations /\
    recommendations (calculate_user_risk_score u)
    = l ++ level_recommendations (risk_level (calculate_user_risk_score u)).
Proof.
  unfold calculate_user_risk_score, user_risk_assessment.
  cbn [recommendations risk_level]. eexists; split; [|reflexivity].
  assert (f_recs (ip_factor (check_ip_reputation (u_ip_address u))) = []) as ->.
  { destruct (ip_factor_checked (u_ip_address u)) as [-> | ->]; reflexivity. }
  repeat apply incl_app; auto with factors.
Qed.

Lemma user_flags_incl (u : UserRiskData) :
  incl (flags (calculate_user_risk_score u)) user_factor_flags.
Proof.
  unfold calculate_user_risk_score, user_risk_assessment. cbn [flags].
  assert (f_flags (ip_factor (check_ip_reputation (u_ip_address u))) = []) as ->.
  { destruct (ip_factor_checked (u_ip_address u)) as [-> | ->]; reflexivity. }
  repeat apply incl_app; auto with factors.
Qed.

Lemma transaction_recommendations_incl
    (l : list HistoryRecord) (tx : TransactionRiskData) :
  incl (recommendations (transaction_risk_assessment l tx))
       transaction_recommendations.
Proof.
  unfold transaction_risk_assessment. cbn [recommendations].
  repeat apply incl_app.
  - unfold amount_factor. incl_cases.
  - unfold frequency_factor. incl_cases.
  - unfold cross_border_factor. incl_cases.
  - unfold time_factor. incl_cases.
  - unfold payment_factor. incl_cases.
  - unfold asset_factor. cbv zeta. incl_cases.
Qed.

(** ** Scores and levels of the two scorers *)

Lemma user_score_range (u : UserRiskData) :
  (0 <= risk_score (calculate_user_risk_score u) <= 0.71)%Q.
Proof.
  unfold calculate_user_risk_score, user_risk_assessment. cbn [risk_score].
  pose proof (user_sum_range (u_ip_address u) u) as H. cbv zeta in H.
  rewrite clamp_id; lra.
Qed.

Lemma transaction_score_range
    (l : list HistoryRecord) (tx : TransactionRiskData) :
  (0 <= risk_score (transaction_risk_assessment l tx) <= 0.66)%Q.
Proof.
  unfold transaction_risk_assessment. cbn [risk_score].
  pose proof (transaction_sum_range l tx) as H.
  rewrite clamp_id; lra.
Qed.

Lemma user_level (u : UserRiskData) :
  risk_level (calculate_user_risk_score u)
  = determine_risk_level (risk_score (calculate_user_risk_score u)).
Proof.
  unfold calculate_user_risk_score, user_risk_assessment.
  cbn [risk_level risk_score]. reflexivity.
Qed.

Lemma transaction_level (l : list HistoryRecord) (tx : TransactionRiskData) :
  risk_level (transaction_risk_assessment l tx)
  = determine_risk_level (risk_score (transaction_risk_assessment l tx)).
Proof.
  unfold transaction_risk_assessment. cbn [risk_level risk_score]. reflexivity.
Qed.

Lemma calculate_transaction_assessment (r : redis) (tx : TransactionRiskData) :
  (calculate_transaction_risk_score r tx).1
  = transaction_risk_assessment (lrange r (history_key (user_id tx)) 0 9) tx.
Proof. unfold calculate_transaction_risk_score. reflexivity. Qed.

(** C1 (as stated, refuted): the default request scores 0.365, which the
    specification's cut points call "medium", and the scorer returns "low". *)
Lemma default_user_not_spec_classified :
  ~ spec_classified (risk_score (calculate_user_risk_score default_user))
                    (risk_level (calculate_user_risk_score default_user)).
Proof.
  intros (_ & _ & Hm & _).
  assert (risk_level (calculate_user_risk_score default_user) = "medium") as H.
  { apply Hm. vm_compute. split; [discriminate | reflexivity]. }
  vm_compute in H. discriminate H.
Qed.

(** C1 (amended): for every request to either scorer the returned level is
    the class of the returned score for the cut points of the source's
    table, 0.95 for "critical", 0.8 for "high" and 0.6 for "medium", else
    "low"; and the score lies in [0, 1]. *)
Theorem risk_level_follows_source_thresholds
    (u : UserRiskData) (r : redis) (tx : TransactionRiskData) :
  let a := calculate_user_risk_score u in
  let t := (calculate_transaction_risk_score r tx).1 in
  code_classified (risk_score a) (risk_level a) /\
  (0 <= risk_score a <= 1)%Q /\
  code_classified (risk_score t) (risk_level t) /\
  (0 <= risk_score t <= 1)%Q.
Proof.
  intros a t. subst a t. rewrite calculate_transaction_assessment.
  rewrite user_level, transaction_level.
  repeat split; try apply determine_risk_level_classified;
    try apply clamp_range.
Qed.

(** The recommendations of a level other than "high" and "critical". *)
Lemma level_recommendations_below_high (lvl : string) :
  lvl = "medium" \/ lvl = "low" ->
  ~ In "Block transactions until manual review" (level_recommendations lvl) /\
  ~ In "Escalate to compliance team" (level_recommendations lvl).
Proof.
  intros [-> | ->]; split; cbn; intros H;
    repeat (destruct H as [H | H]; [discriminate H|]); exact H.
Qed.

Lemma user_level_below_high (u : UserRiskData) :
  risk_level (calculate_user_risk_score u) = "medium" \/
  risk_level (calculate_user_risk_score u) = "low".
Proof.
  rewrite user_level. apply determine_risk_level_below_high.
  pose proof (user_score_range u). lra.
Qed.

Lemma transaction_level_below_high
    (l : list HistoryRecord) (tx : TransactionRiskData) :
  risk_level (transaction_risk_assessment l tx) = "medium" \/
  risk_level (transaction_risk_assessment l tx) = "low".
Proof.
  rewrite transaction_level. apply determine_risk_level_below_high.
  pose proof (transaction_score_range l tx). lra.
Qed.

Lemma user_standing_recommendations_absent (u : UserRiskData) :
  ~ In "Block transactions until manual review"
       (recommendations (calculate_user_risk_score u)) /\
  ~ In "Escalate to compliance team"
       (recommendations (calculate_user_risk_score u)).
Proof.
  destruct (user_recommendations_split u) as (l & Hl & ->).
  destruct (level_recommendations_below_high _ (user_level_below_high u))
    as [Hb He].
  split; intros Hin; apply in_app_or in Hin as [Hin | Hin];
    try (apply Hl in Hin; cbn in Hin; intuition discriminate);
    [apply Hb | apply He]; exact Hin.
Qed.

Lemma transaction_standing_recommendations_absent
    (l : list HistoryRecord) (tx : TransactionRiskData) :
  ~ In "Block transactions until manual review"
       (recommendations (transaction_risk_assessment l tx)) /\
  ~ In "Escalate to compliance team"
       (recommendations (transaction_risk_assessment l tx)).
Proof.
  split; intros Hin; apply transaction_recommendations_incl in Hin;
    cbn in Hin; intuition discriminate.
Qed.

Lemma level_recommendations_not_identity (lvl : string) :
  ~ In "Verify user identity through additional channels"
       (level_recommendations lvl).
Proof.
  unfold level_recommendations. factor_cases; cbn; intuition discriminate.
Qed.

Lemma user_suspicious_ip_absent (u : UserRiskData) :
  ~ In "Suspicious IP address" (flags (calculate_user_risk_score u)) /\
  ~ In "Verify user identity through additional channels"
       (recommendations (calculate_user_risk_score u)).
Proof.
  split.
  - intros Hin. apply user_flags_incl in Hin.
    cbn in Hin. intuition discriminate.
  - intros Hin.
    destruct (user_recommendations_split u) as (l & Hl & Hr).
    rewrite Hr in Hin. apply in_app_or in Hin as [Hin | Hin].
    + apply Hl in Hin. cbn in Hin. intuition discriminate.
    + exact (level_recommendations_not_identity _ Hin).
Qed.

(** ** The scorers in binary64 *)

Lemma str_in_In (x : string) (l : list string) :
  str_in x l = true <-> In x l.
Proof.
  unfold str_in. rewrite existsb_exists. split.
  - intros (y & Hy & E). apply String.eqb_eq in E. subst y. exact Hy.
  - intros H. exists x. split; [exact H | apply String.eqb_refl].
Qed.

Lemma str_in_absent (x : string) (l : list string) :
  negb (str_in x l) = true -> ~ In x l.
Proof.
  intros H Hin. apply str_in_In in Hin. rewrite Hin in H. discriminate H.
Qed.

Lemma level_differs (lvl other : string) :
  negb (String.eqb lvl other) = true -> lvl <> other.
Proof. intros H. apply String.eqb_neq, negb_true_iff, H. Qed.

(** Each factor function returns one of its outcomes. *)
Lemma ip_outcome (ip : string) :
  In (B64.ip_factor (check_ip_reputation ip)) ip_outcomes.
Proof. unfold check_ip_reputation. outcome_cases. Qed.

Lemma account_age_outcome (d : Z) :
  In (account_age_factor d) (map account_age_factor [0; 1; 7; 30]).
Proof. unfold account_age_factor at 1. outcome_cases. Qed.

Lemma transaction_count_outcome (n : Z) :
  In (transaction_count_factor n) (map transaction_count_factor [51; 21; 0]).
Proof. unfold transaction_count_factor at 1. outcome_cases. Qed.

Lemma volume_outcome (v : pyfloat) :
  In (volume_factor v) (map volume_factor [PosInf; Finite 50001; Finite 0]).
Proof. unfold volume_factor at 1. outcome_cases. Qed.

Lemma login_outcome (n : Z) :
  In (login_factor n) (map login_factor [6; 3; 0]).
Proof. unfold login_factor at 1. outcome_cases. Qed.

Lemma kyc_outcome (s : string) :
  In (kyc_factor s) (map kyc_factor ["rejected"; "pending"; "verified"]).
Proof. unfold kyc_factor at 1. outcome_cases. Qed.

Lemma amount_outcome (a : pyfloat) :
  In (amount_factor a) (map amount_factor [PosInf; Finite 10001; Finite 0]).
Proof. unfold amount_factor at 1. outcome_cases. Qed.

Lemma frequency_outcome (l : list HistoryRecord) :
  In (frequency_factor l)
     (map (fun n => frequency_factor
                      (replicate n (mk_HistoryRecord NaN
                                      (mk_datetime 0 0 0 0 0 0) 0%Q)))
          [5%nat; 3%nat; 0%nat]).
Proof. unfold frequency_factor at 1. outcome_cases. Qed.

Lemma cross_border_outcome (b : bool) :
  In (cross_border_factor b) (map cross_border_factor [true; false]).
Proof. unfold cross_border_factor at 1. outcome_cases. Qed.

Lemma time_outcome (h : Z) :
  In (time_factor h) (map time_factor [0; 12]).
Proof. unfold time_factor at 1. outcome_cases. Qed.

Lemma payment_outcome (m : string) :
  In (payment_factor m) (map payment_factor ["crypto"; "credit_card"; "cash"]).
Proof. unfold payment_factor at 1. outcome_cases. Qed.

Lemma asset_outcome (a : string) :
  In (asset_factor a) (map asset_factor ["art"; "bond"]).
Proof. unfold asset_factor at 1. outcome_cases. Qed.

Lemma user_field_outcome (u : UserRiskData) :
  In (user_field_results u) user_field_outcomes.
Proof.
  unfold user_field_results, user_field_outcomes.
  repeat apply in_prod;
    auto using account_age_outcome, transaction_count_outcome,
               volume_outcome, login_outcome, kyc_outcome.
Qed.

(** A property that holds of every combination of outcomes holds of every
    request. *)
Lemma every_user_outcome_sound
    (P : PrimFloat.float * list string * list string ->
         factor -> factor -> factor -> factor -> factor -> bool) :
  every_user_outcome P = true ->
  forall u : UserRiskData,
    P (B64.ip_factor (check_ip_reputation (u_ip_address u)))
      (account_age_factor (account_age_days u))
      (transaction_count_factor (transaction_count u))
      (volume_factor (total_volume u))
      (login_factor (failed_login_attempts u))
      (kyc_factor (kyc_status u)) = true.
Proof.
  intros H u. unfold every_user_outcome in H.
  rewrite forallb_forall in H.
  specialize (H _ (ip_outcome (u_ip_address u))). cbv beta in H.
  rewrite forallb_forall in H.
  exact (H _ (user_field_outcome u)).
Qed.

Lemma every_transaction_outcome_sound
    (P : factor -> factor -> factor -> factor -> factor -> factor -> bool) :
  every_transaction_outcome P = true ->
  forall (recent : list HistoryRecord) (tx : TransactionRiskData),
    P (amount_factor (amount tx))
      (frequency_factor recent)
      (cross_border_factor (is_cross_border tx))
      (time_factor (hour (timestamp tx)))
      (payment_factor (payment_method tx))
      (asset_factor (asset_type tx)) = true.
Proof.
  intros H recent tx. unfold every_transaction_outcome in H.
  rewrite forallb_forall in H.
  refine (H (_, (_, (_, (_, (_, _))))) _).
  unfold transaction_outcomes.
  repeat apply in_prod;
    auto using amount_outcome, frequency_outcome, cross_border_outcome,
               time_outcome, payment_outcome, asset_outcome.
Qed.

Section Binary64.

Import PrimFloat.

Variable alg : B64.summation.

(** The literals of the thresholds, bounds and weights in binary64. *)
Example literals_in_binary64 :
  map B64.lit [0.1; 0.15; 0.2; 0.3; 0.4; 0.5; 0.6; 0.66; 0.7; 0.71; 0.75;
               0.8; 0.9; 0.95; 1.0]%Q
  = [0.1; 0.15; 0.2; 0.3; 0.4; 0.5; 0.6; 0.66; 0.7; 0.71; 0.75; 0.8; 0.9;
     0.95; 1.0]%float.
Proof. vm_compute. reflexivity. Qed.

Lemma user_below_high (u : UserRiskData) :
  let a := B64.calculate_user_risk_score alg u in
  (B64.risk_score a <=? 0.7100000000000001)%float = true /\
  (B64.risk_level a <> "high" /\ B64.risk_level a <> "critical") /\
  (~ In "Block transactions until manual review" (B64.recommendations a) /\
   ~ In "Escalate to compliance team" (B64.recommendations a)).
Proof.
  pose proof (every_user_outcome_sound
    (fun f1 f2 f3 f4 f5 f6 =>
       let a := B64.user_assessment alg f1 f2 f3 f4 f5 f6 in
       (B64.risk_score a <=? 0.7100000000000001)%float
       && (negb (String.eqb (B64.risk_level a) "high")
       && (negb (String.eqb (B64.risk_level a) "critical")
       && (negb (str_in "Block transactions until manual review"
                        (B64.recommendations a))
       && negb (str_in "Escalate to compliance team"
                       (B64.recommendations a))))))) as H.
  specialize (H ltac:(destruct alg; vm_compute; reflexivity) u).
  unfold B64.calculate_user_risk_score, B64.user_risk_assessment.
  cbv zeta in *.
  apply andb_prop in H as [H1 H]. apply andb_prop in H as [H2 H].
  apply andb_prop in H as [H3 H]. apply andb_prop in H as [H4 H5].
  split; [exact H1|].
  split; [split; apply level_differs; [exact H2 | exact H3]|].
  split; apply str_in_absent; [exact H4 | exact H5].
Qed.

Lemma transaction_below_high
    (recent : list HistoryRecord) (tx : TransactionRiskData) :
  let t := B64.transaction_risk_assessment alg recent tx in
  (B64.risk_score t <=? 0.66)%float = true /\
  (B64.risk_level t <> "high" /\ B64.risk_level t <> "critical") /\
  (~ In "Block transactions until manual review" (B64.recommendations t) /\
   ~ In "Escalate to compliance team" (B64.recommendations t)).
Proof.
  pose proof (every_transaction_outcome_sound
    (fun f1 f2 f3 f4 f5 f6 =>
       let t := B64.transaction_assessment alg f1 f2 f3 f4 f5 f6 in
       (B64.risk_score t <=? 0.66)%float
       && (negb (String.eqb (B64.risk_level t) "high")
       && (negb (String.eqb (B64.risk_level t) "critical")
       && (negb (str_in "Block transactions until manual review"
                        (B64.recommendations t))
       && negb (str_in "Escalate to compliance team"
                       (B64.recommendations t))))))) as H.
  specialize (H ltac:(destruct alg; vm_compute; reflexivity) recent tx).
  unfold B64.transaction_risk_assessment.
  cbv zeta in *.
  apply andb_prop in H as [H1 H]. apply andb_prop in H as [H2 H].
  apply andb_prop in H as [H3 H]. apply andb_prop in H as [H4 H5].
  split; [exact H1|].
  split; [split; apply level_differs; [exact H2 | exact H3]|].
  split; apply str_in_absent; [exact H4 | exact H5].
Qed.

(** C2 (amended): in binary64, whichever way [sum] adds, a user
    assessment never scores above 0.7100000000000001 and a transaction
    assessment, whatever the history holds, never above 0.66; neither
    scorer returns the level "high" or "critical", and neither standing
    recommendation of those levels is ever emitted.  The levels and the
    recommendations are the same when the scores are read as exact
    rationals. *)
Theorem scorers_never_reach_high
    (u : UserRiskData) (recent : list HistoryRecord)
    (r : redis) (tx : TransactionRiskData) :
  let a := B64.calculate_user_risk_score alg u in
  let t := B64.transaction_risk_assessment alg recent tx in
  let a' := calculate_user_risk_score u in
  let t' := (calculate_transaction_risk_score r tx).1 in
  ((B64.risk_score a <=? 0.7100000000000001)%float = true /\
   (B64.risk_score t <=? 0.66)%float = true) /\
  (B64.risk_level a <> "high" /\ B64.risk_level a <> "critical") /\
  (B64.risk_level t <> "high" /\ B64.risk_level t <> "critical") /\
  (~ In "Block transactions until manual review" (B64.recommendations a) /\
   ~ In "Escalate to compliance team" (B64.recommendations a)) /\
  (~ In "Block transactions until manual review" (B64.recommendations t) /\
   ~ In "Escalate to compliance team" (B64.recommendations t)) /\
  (risk_level a' <> "high" /\ risk_level a' <> "critical") /\
  (risk_level t' <> "high" /\ risk_level t' <> "critical") /\
  (~ In "Block transactions until manual review" (recommendations a') /\
   ~ In "Escalate to compliance team" (recommendations a')) /\
  (~ In "Block transactions until manual review" (recommendations t') /\
   ~ In "Escalate to compliance team" (recommendations t')).
Proof.
  cbv zeta.
  destruct (user_below_high u) as (Hs & Hl & Hr).
  destruct (transaction_below_high recent tx) as (Hts & Htl & Htr).
  rewrite calculate_transaction_assessment.
  set (l := lrange r (history_key (user_id tx)) 0 9).
  split; [split; assumption|].
  split; [exact Hl|]. split; [exact Htl|].
  split; [exact Hr|]. split; [exact Htr|].
  split; [destruct (user_level_below_high u) as [-> | ->]; split; discriminate|].
  split; [destruct (transaction_level_below_high l tx) as [-> | ->];
          split; discriminate|].
  split; [apply user_standing_recommendations_absent|].
  apply transaction_standing_recommendations_absent.
Qed.

(** C10 (amended): in binary64 the reputation risk of a user assessment
    is 0.19999999999999996, the result of [1.0 - 0.8], or 0.5; the test
    [ip_risk > 0.7] is false, and neither the flag "Suspicious IP address"
    nor its recommendation occurs in the assessment, whichever way [sum]
    adds and also when the scores are read as exact rationals. *)
Theorem suspicious_ip_never_reported (u : UserRiskData) :
  let ip_risk :=
    (1.0 - B64.lit (reputation_score
                      (check_ip_reputation (u_ip_address u))))%float in
  let a := B64.calculate_user_risk_score alg u in
  let a' := calculate_user_risk_score u in
  (ip_risk = 0.19999999999999996%float \/ ip_risk = 0.5%float) /\
  (0.7 <? ip_risk)%float = false /\
  ~ In "Suspicious IP address" (B64.flags a) /\
  ~ In "Verify user identity through additional channels"
       (B64.recommendations a) /\
  ~ In "Suspicious IP address" (flags a') /\
  ~ In "Verify user identity through additional channels"
       (recommendations a').
Proof.
  cbv zeta. split; [|split].
  - destruct (check_ip_reputation_score (u_ip_address u)) as [-> | ->];
      [right | left]; vm_compute; reflexivity.
  - destruct (check_ip_reputation_score (u_ip_address u)) as [-> | ->];
      vm_compute; reflexivity.
  - pose proof (every_user_outcome_sound
      (fun f1 f2 f3 f4 f5 f6 =>
         let a := B64.user_assessment alg f1 f2 f3 f4 f5 f6 in
         negb (str_in "Suspicious IP address" (B64.flags a))
         && negb (str_in "Verify user identity through additional channels"
                         (B64.recommendations a)))) as H.
    specialize (H ltac:(destruct alg; vm_compute; reflexivity) u).
    unfold B64.calculate_user_risk_score, B64.user_risk_assessment.
    cbv zeta in H. apply andb_prop in H as [H1 H2].
    split; [apply str_in_absent; exact H1|].
    split; [apply str_in_absent; exact H2|].
    apply user_suspicious_ip_absent.
Qed.

End Binary64.

(** C2 (as stated, refuted): when [sum] adds from the left, the boundary
    user scores 0.7100000000000001, above the bound 0.71 of the claim. *)
Lemma boundary_user_exceeds_bound :
  let a := B64.calculate_user_risk_score B64.LeftToRight boundary_user in
  PrimFloat.ltb (B64.lit 0.71) (B64.risk_score a) = true /\
  B64.risk_score a = PrimFloat.next_up (B64.lit 0.71).
Proof. split; vm_compute; reflexivity. Qed.

(** C10 (as stated, refuted): for a request from a private address the
    reputation risk [1.0 - 0.8] is neither 0.2 nor 0.5; it is below 0.2. *)
Lemma trusted_address_risk_is_not_a_fifth :
  let u := with_ip_address default_user "10.0.0.7" in
  let ip_risk :=
    PrimFloat.sub (B64.lit 1.0)
      (B64.lit (reputation_score (check_ip_reputation (u_ip_address u)))) in
  PrimFloat.eqb ip_risk (B64.lit 0.2) = false /\
  PrimFloat.eqb ip_risk (B64.lit 0.5) = false /\
  PrimFloat.ltb ip_risk (B64.lit 0.2) = true.
Proof. repeat split; vm_compute; reflexivity. Qed.

(** ** Redis ranges *)

Lemma list_range_all {A : Type} (l : list A) : list_range l 0 (-1) = l.
Proof.
  unfold list_range. cbv zeta.
  change (0 <? 0) with false. change (-1 <? 0) with true. cbv iota.
  change (0 <? 0) with false. cbv iota.
  destruct l as [|x l]; [reflexivity|].
  set (n := Z.of_nat (length (x :: l))).
  assert (0 < n) as Hn by (subst n; cbn [length]; lia).
  destruct (0 >? n + -1) eqn:H1; [zbool; lia|].
  destruct (0 >=? n) eqn:H2; [zbool; lia|]. cbn [orb].
  destruct (n + -1 >=? n) eqn:H3; [zbool; lia|].
  rewrite drop_0. apply take_ge. subst n. lia.
Qed.

Lemma list_range_prefix {A : Type} (l : list A) (n : nat) :
  list_range l 0 (Z.of_nat n) = take (S n) l.
Proof.
  unfold list_range. cbv zeta.
  change (0 <? 0) with false. cbv iota.
  change (0 <? 0) with false. cbv iota.
  destruct (Z.of_nat n <? 0) eqn:H0; [zbool; lia|].
  destruct l as [|x l].
  { change (Z.of_nat (length (@nil A))) with 0.
    change (0 >=? 0) with true. rewrite orb_true_r. reflexivity. }
  set (len := Z.of_nat (length (x :: l))).
  assert (0 < len) as Hlen by (subst len; cbn [length]; lia).
  destruct (0 >? Z.of_nat n) eqn:H1; [zbool; lia|].
  destruct (0 >=? len) eqn:H2; [zbool; lia|]. cbn [orb]. rewrite drop_0.
  destruct (Z.of_nat n >=? len) eqn:H3; zbool.
  - rewrite !take_ge; [reflexivity | subst len; lia | subst len; lia].
  - f_equal. lia.
Qed.

Lemma list_range_trim {A : Type} (l : list A) :
  list_range l 0 19 = take 20 l.
Proof. exact (list_range_prefix l 19). Qed.

Lemma window_items (r : redis) (uid : string) :
  window r uid = match r !! history_key uid with
                 | Some e => items e
                 | None => []
                 end.
Proof.
  unfold window, lrange. destruct (r !! history_key uid); [|reflexivity].
  apply list_range_all.
Qed.

(** The entries read at line 276 are the first ten of the window. *)
Lemma lrange_recent (r : redis) (uid : string) :
  lrange r (history_key uid) 0 9 = take 10 (window r uid).
Proof.
  rewrite window_items. unfold lrange.
  destruct (r !! history_key uid); [|reflexivity].
  apply (list_range_prefix _ 9).
Qed.

(** ** The boundary user (C3) *)


Lemma boundary_factors :
  account_age_factor 0
  = (0.8%Q, ["New account (less than 1 day old)"],
     ["Apply enhanced monitoring for new accounts"]) /\
  transaction_count_factor 60
  = (0.7%Q, ["High frequency trading pattern"], []) /\
  volume_factor (Finite 150000)
  = (0.6%Q, ["High volume transactions"], ["Verify source of funds"]) /\
  login_factor 6
  = (0.8%Q, ["Multiple failed login attempts"],
     ["Require password reset and 2FA"]) /\
  kyc_factor "rejected"
  = (0.9%Q, ["KYC verification failed"], ["Manual review required"]).
Proof. repeat split. Qed.

Lemma ip_factor_risk (rep : reputation) :
  f_risk (ip_factor rep) = (1.0 - reputation_score rep)%Q.
Proof. unfold ip_factor. destruct (Qgtb _ _); reflexivity. Qed.





(** ** The art purchase at night (C4) *)

(** The assessment reads five fields of the request. *)
Lemma transaction_assessment_fields
    (l : list HistoryRecord) (tx tx' : TransactionRiskData) :
  amount tx = amount tx' ->
  is_cross_border tx = is_cross_border tx' ->
  hour (timestamp tx) = hour (timestamp tx') ->
  payment_method tx = payment_method tx' ->
  asset_type tx = asset_type tx' ->
  transaction_risk_assessment l tx = transaction_risk_assessment l tx'.
Proof.
  intros Ha Hc Hh Hp Hs. unfold transaction_risk_assessment.
  rewrite Ha, Hc, Hh, Hp, Hs. reflexivity.
Qed.

(** C4 (as stated, refuted): with an empty store the transaction of the
    scenario scores 0.54 and is classified "low". *)
Lemma art_purchase_is_low :
  let a := (calculate_transaction_risk_score ∅ art_purchase).1 in
  window ∅ (user_id art_purchase) = [] /\
  (risk_score a == 0.54)%Q /\
  risk_level a = "low".
Proof. cbv zeta. repeat split; vm_compute; reflexivity. Qed.

(** C4 (amended): a transaction of 60000 paid in crypto, cross-border, for
    art, at hour 2, by a user without history, scores 0.54 and is
    classified "low". *)
Theorem art_purchase_assessment (r : redis) (tx : TransactionRiskData) :
  amount tx = Finite 60000 ->
  payment_method tx = "crypto" ->
  is_cross_border tx = true ->
  asset_type tx = "art" ->
  hour (timestamp tx) = 2 ->
  window r (user_id tx) = [] ->
  let a := (calculate_transaction_risk_score r tx).1 in
  (risk_score a == 0.54)%Q /\ risk_level a = "low".
Proof.
  intros Ha Hp Hc Hs Hh Hw. cbv zeta.
  rewrite calculate_transaction_assessment, lrange_recent, Hw.
  change (take 10 []) with (@nil HistoryRecord).
  rewrite (transaction_assessment_fields [] tx art_purchase)
    by (rewrite ?Ha, ?Hp, ?Hc, ?Hs, ?Hh; reflexivity).
  split; vm_compute; reflexivity.
Qed.

Lemma art_purchase_assessment_witness :
  let a := (calculate_transaction_risk_score ∅ art_purchase).1 in
  (risk_score a == 0.54)%Q /\ risk_level a = "low".
Proof. apply (art_purchase_assessment ∅ art_purchase); reflexivity. Defined.

(** ** Monotonicity (C7) *)

Lemma account_age_factor_antitone (d1 d2 : Z) :
  d1 <= d2 ->
  (f_risk (account_age_factor d2) <= f_risk (account_age_factor d1))%Q.
Proof.
  intros H. unfold account_age_factor.
  destruct (d1 <? 1) eqn:A1, (d1 <? 7) eqn:A7, (d1 <? 30) eqn:A30,
           (d2 <? 1) eqn:B1, (d2 <? 7) eqn:B7, (d2 <? 30) eqn:B30;
    cbn [f_risk fst]; zbool; first [lia | lra].
Qed.

Lemma float_gt_int_mono (a1 a2 : pyfloat) (n : Z) :
  float_lt a1 a2 = true ->
  float_gt_int a1 n = true -> float_gt_int a2 n = true.
Proof.
  destruct a1 as [p| | |], a2 as [q| | |]; cbn [float_lt float_gt_int];
    try discriminate; auto.
  destruct (p ?= q)%Q eqn:Hpq; try discriminate. intros _.
  destruct (inject_Z n ?= p)%Q eqn:Hnp; try discriminate. intros _.
  apply Qlt_alt in Hpq, Hnp.
  assert ((inject_Z n ?= q)%Q = Lt) as ->
      by (apply Qlt_alt; eapply Qlt_trans; eauto).
  reflexivity.
Qed.

Lemma amount_factor_monotone (a1 a2 : pyfloat) :
  float_lt a1 a2 = true ->
  (f_risk (amount_factor a1) <= f_risk (amount_factor a2))%Q.
Proof.
  intros H. unfold amount_factor.
  pose proof (float_gt_int_mono a1 a2 50000 H) as H5.
  pose proof (float_gt_int_mono a1 a2 10000 H) as H1.
  destruct (float_gt_int a1 50000), (float_gt_int a1 10000);
    try rewrite (H5 eq_refl); try rewrite (H1 eq_refl);
    destruct (float_gt_int a2 50000), (float_gt_int a2 10000);
    cbn [f_risk fst]; lra.
Qed.

(** C7: a larger [account_age_days], all other fields equal, does not
    raise the user score; a larger [amount], all other fields and the
    store equal, does not lower the transaction score. *)
Theorem scores_monotone
    (u : UserRiskData) (d : Z)
    (r : redis) (tx : TransactionRiskData) (a : pyfloat) :
  account_age_days u < d ->
  float_lt (amount tx) a = true ->
  (risk_score (calculate_user_risk_score (with_account_age_days u d))
   <= risk_score (calculate_user_risk_score u))%Q /\
  (risk_score (calculate_transaction_risk_score r tx).1
   <= risk_score (calculate_transaction_risk_score r (with_amount tx a)).1)%Q.
Proof.
  intros Hd Ha. split.
  - unfold calculate_user_risk_score, user_risk_assessment.
    cbn [risk_score with_account_age_days u_ip_address account_age_days
         transaction_count total_volume failed_login_attempts kyc_status].
    apply clamp_mono. rewrite !sum6.
    pose proof (account_age_factor_antitone (account_age_days u) d
                  ltac:(lia)).
    lra.
  - rewrite !calculate_transaction_assessment.
    unfold transaction_risk_assessment.
    cbn [risk_score with_amount user_id amount is_cross_border timestamp
         payment_method asset_type].
    apply clamp_mono. rewrite !sum6.
    pose proof (amount_factor_monotone (amount tx) a Ha).
    lra.
Qed.

Lemma scores_monotone_witness :
  (risk_score (calculate_user_risk_score (with_account_age_days default_user 400))
   <= risk_score (calculate_user_risk_score default_user))%Q /\
  (risk_score (calculate_transaction_risk_score ∅ small_purchase).1
   <= risk_score
        (calculate_transaction_risk_score ∅
           (with_amount small_purchase (Finite 60000))).1)%Q.
Proof.
  apply (scores_monotone default_user 400 ∅ small_purchase (Finite 60000));
    reflexivity.
Defined.

(** ** The history window (C8) *)

(** The three writes of lines 362-364 amount to one update of the user's
    key: the new record in front of the old window, cut to twenty entries,
    with a time to live of thirty days. *)
Lemma calculate_transaction_store (r : redis) (tx : TransactionRiskData) :
  (calculate_transaction_risk_score r tx).2
  = <[history_key (user_id tx) :=
        {| items :=
             take 20 (tx_record tx (calculate_transaction_risk_score r tx).1
                      :: window r (user_id tx));
           ttl := Some (86400 * 30) |}]> r.
Proof.
  unfold calculate_transaction_risk_score. cbn [fst snd].
  set (k := history_key (user_id tx)).
  set (v := tx_record tx _).
  rewrite window_items. fold k.
  unfold lpush.
  destruct (r !! k) as [e|] eqn:E.
  - unfold ltrim. rewrite lookup_insert_eq. cbn [items ttl].
    rewrite list_range_trim.
    cbn [take]. rewrite insert_insert_eq.
    unfold expire. rewrite lookup_insert_eq. cbn [items].
    rewrite insert_insert_eq. reflexivity.
  - unfold ltrim. rewrite lookup_insert_eq. cbn [items ttl].
    rewrite list_range_trim.
    cbn [take]. rewrite insert_insert_eq.
    unfold expire. rewrite lookup_insert_eq. cbn [items].
    rewrite insert_insert_eq. reflexivity.
Qed.

Lemma window_after_evaluation
    (r : redis) (tx : TransactionRiskData) (uid : string) :
  window (calculate_transaction_risk_score r tx).2 uid
  = if decide (history_key (user_id tx) = history_key uid)
    then take 20 (tx_record tx (calculate_transaction_risk_score r tx).1
                  :: window r uid)
    else window r uid.
Proof.
  rewrite calculate_transaction_store.
  rewrite (window_items (<[_ := _]> r)), lookup_insert.
  destruct (decide (history_key (user_id tx) = history_key uid)) as [Hk|Hk].
  - cbn [items]. rewrite !window_items, Hk. reflexivity.
  - rewrite window_items. reflexivity.
Qed.

Lemma take_app_take {A : Type} (l k : list A) (m n : nat) :
  (m <= n)%nat -> take m (l ++ take n k) = take m (l ++ k).
Proof.
  revert m. induction l as [|x l IH]; intros m Hm.
  - cbn [app]. rewrite take_take. f_equal. lia.
  - destruct m as [|m]; [reflexivity|].
    cbn [app take]. f_equal. apply IH. lia.
Qed.

Lemma evaluate_all_cons
    (r : redis) (tx : TransactionRiskData) (txs : list TransactionRiskData) :
  evaluate_all r (tx :: txs)
  = ((evaluate_all (calculate_transaction_risk_score r tx).2 txs).1,
     tx_record tx (calculate_transaction_risk_score r tx).1
     :: (evaluate_all (calculate_transaction_risk_score r tx).2 txs).2).
Proof.
  cbn [evaluate_all].
  destruct (calculate_transaction_risk_score r tx) as [a r']. cbn [fst snd].
  destruct (evaluate_all r' txs) as [r'' recs]. reflexivity.
Qed.

(** After one or more evaluations for one user the window holds the
    twenty newest of: the records just written, newest first, followed by
    what was there before. *)
Lemma window_after_evaluations
    (txs : list TransactionRiskData) (r : redis) (uid : string) :
  Forall (fun t => user_id t = uid) txs ->
  txs <> [] ->
  window (evaluate_all r txs).1 uid
  = take 20 (rev (evaluate_all r txs).2 ++ window r uid).
Proof.
  revert r. induction txs as [|tx txs IH]; intros r Hall Hne; [done|].
  apply Forall_cons in Hall as [Hu Hall].
  rewrite evaluate_all_cons. cbn [fst snd rev].
  set (r' := (calculate_transaction_risk_score r tx).2).
  set (v := tx_record tx _).
  assert (window r' uid = take 20 (v :: window r uid)) as Hw.
  { subst r' v. rewrite window_after_evaluation, Hu.
    rewrite decide_True by reflexivity. reflexivity. }
  rewrite <- app_assoc. cbn [app].
  destruct txs as [|tx' txs].
  - cbn [evaluate_all fst snd rev app]. exact Hw.
  - rewrite IH by (auto; discriminate).
    rewrite Hw. apply take_app_take. lia.
Qed.

Lemma evaluate_all_records
    (txs : list TransactionRiskData) (r : redis) :
  map rec_amount (evaluate_all r txs).2 = map amount txs /\
  map rec_timestamp (evaluate_all r txs).2 = map timestamp txs.
Proof.
  revert r. induction txs as [|tx txs IH]; intros r; [split; reflexivity|].
  rewrite evaluate_all_cons. cbn [snd map tx_record rec_amount rec_timestamp].
  destruct (IH (calculate_transaction_risk_score r tx).2) as [-> ->].
  split; reflexivity.
Qed.

(** C8: an evaluation leaves in the user's window the new record in front
    of the previous window, cut to its first twenty entries, with a time to
    live of thirty days, so the window never holds more than twenty
    entries after a write; and after twenty-five evaluations for one user
    the window is exactly the twenty most recent records, newest first. *)
Theorem history_window_bounded
    (r : redis) (tx : TransactionRiskData)
    (txs : list TransactionRiskData) (uid : string) :
  length txs = 25%nat ->
  Forall (fun t => user_id t = uid) txs ->
  let a := (calculate_transaction_risk_score r tx).1 in
  let r' := (calculate_transaction_risk_score r tx).2 in
  let recs := (evaluate_all r txs).2 in
  let rN := (evaluate_all r txs).1 in
  (window r' (user_id tx) = take 20 (tx_record tx a :: window r (user_id tx))
   /\ rec_amount (tx_record tx a) = amount tx
   /\ rec_timestamp (tx_record tx a) = timestamp tx
   /\ rec_risk_score (tx_record tx a) = risk_score a
   /\ window_ttl r' (user_id tx) = Some (30 * 86400)
   /\ (length (window r' (user_id tx)) <= 20)%nat) /\
  (window rN uid = take 20 (rev recs)
   /\ length (window rN uid) = 20%nat
   /\ map rec_amount recs = map amount txs
   /\ map rec_timestamp recs = map timestamp txs).
Proof.
  intros Hlen Hall. cbv zeta. split.
  - rewrite window_after_evaluation, decide_True by reflexivity.
    repeat split.
    + unfold window_ttl.
      rewrite calculate_transaction_store, lookup_insert_eq. reflexivity.
    + rewrite length_take. lia.
  - assert (length (evaluate_all r txs).2 = 25%nat) as Hrecs.
    { rewrite <- Hlen, <- (length_map amount txs).
      rewrite <- (proj1 (evaluate_all_records txs r)).
      rewrite length_map. reflexivity. }
    assert (window (evaluate_all r txs).1 uid
            = take 20 (rev (evaluate_all r txs).2)) as Hw.
    { rewrite window_after_evaluations; auto.
      - apply take_app_le. rewrite length_rev. lia.
      - intros ->. discriminate Hlen. }
    rewrite Hw. split; [reflexivity|]. split.
    + rewrite length_take, length_rev. lia.
    + apply evaluate_all_records.
Qed.

Lemma history_window_bounded_witness :
  let txs := replicate 25 small_purchase in
  window (evaluate_all ∅ txs).1 "u1" = take 20 (rev (evaluate_all ∅ txs).2) /\
  length (window (evaluate_all ∅ txs).1 "u1") = 20%nat.
Proof.
  cbv zeta.
  pose proof (history_window_bounded ∅ small_purchase
                (replicate 25 small_purchase) "u1" eq_refl) as H.
  cbv zeta in H.
  destruct H as (_ & Hw & Hl & _).
  - cbn [replicate]. repeat (constructor; [reflexivity|]). constructor.
  - split; [exact Hw | exact Hl].
Defined.

(** ** Statistics (C5, C6) *)

Lemma collect_scores_from
    (l : list HistoryRecord) (scores : list Q) (n : Z) :
  (fold_left
     (fun '(risk_scores, high_risk_count) tx_data =>
        let risk_score := rec_risk_score tx_data in
        (risk_scores ++ [risk_score],
         if Qgeb risk_score (high RISK_THRESHOLDS)
         then high_risk_count + 1 else high_risk_count))
     l (scores, n)).1
  = scores ++ map rec_risk_score l.
Proof.
  revert scores n. induction l as [|x l IH]; intros scores n.
  - cbn [fold_left fst map]. rewrite app_nil_r. reflexivity.
  - cbn [fold_left map]. rewrite IH, <- app_assoc. reflexivity.
Qed.

Lemma collect_scores_list (l : list HistoryRecord) :
  (collect_scores l).1 = map rec_risk_score l.
Proof. unfold collect_scores. rewrite collect_scores_from. reflexivity. Qed.

Lemma response_get_trend (a b c d e : json) :
  response_get "risk_trend"
    [ ("user_id", a); ("transaction_count", b); ("average_risk_score", c);
      ("high_risk_transactions", d); ("risk_trend", e) ] = Some e.
Proof. reflexivity. Qed.

(** The response to a user with two or more retained entries. *)
Lemma risk_trend_of_window
    (r : redis) (uid : string)
    (newest : HistoryRecord) (middle : list HistoryRecord)
    (oldest : HistoryRecord) :
  window r uid = newest :: middle ++ [oldest] ->
  response_get "risk_trend" (get_user_risk_stats r uid)
  = Some (JStr (if Qgtb (rec_risk_score newest) (rec_risk_score oldest)
                then "increasing" else "stable")).
Proof.
  intros Hw. unfold get_user_risk_stats.
  fold (window r uid). rewrite Hw.
  pose proof (collect_scores_list (newest :: middle ++ [oldest])) as Hs.
  destruct (collect_scores (newest :: middle ++ [oldest])) as [scores n].
  cbn [fst] in Hs. subst scores. rewrite response_get_trend.
  assert ((Z.of_nat (length (map rec_risk_score (newest :: middle ++ [oldest])))
           >? 1) = true) as ->.
  { rewrite length_map. cbn [length]. rewrite length_app. cbn [length].
    apply Z.gtb_gt. lia. }
  cbn [andb]. unfold first_score, last_score.
  rewrite app_comm_cons, map_app. cbn [map].
  rewrite last_last. reflexivity.
Qed.

(** C5 (as stated, refuted): after a high-risk and then a low-risk
    evaluation the oldest retained score exceeds the most recent one, and
    the trend is "stable". *)
Lemma falling_scores_are_stable :
  let r := (evaluate_all ∅ [art_purchase; small_purchase]).1 in
  exists newest oldest,
    window r "u1" = [newest; oldest] /\
    (rec_risk_score newest < rec_risk_score oldest)%Q /\
    response_get "risk_trend" (get_user_risk_stats r "u1")
    = Some (JStr "stable").
Proof.
  cbv zeta. eexists _, _. split; [vm_compute; reflexivity|].
  split; vm_compute; reflexivity.
Qed.

(** C5 (amended): for a user with at least two retained entries the
    trend is "increasing" exactly when the most recent entry's score is
    greater than the oldest retained entry's score, and "stable"
    otherwise. *)
Theorem risk_trend_compares_newest_with_oldest
    (r : redis) (uid : string)
    (newest : HistoryRecord) (middle : list HistoryRecord)
    (oldest : HistoryRecord) :
  window r uid = newest :: middle ++ [oldest] ->
  let trend := response_get "risk_trend" (get_user_risk_stats r uid) in
  (trend = Some (JStr "increasing")
   <-> (rec_risk_score oldest < rec_risk_score newest)%Q) /\
  (trend = Some (JStr "stable")
   <-> ~ (rec_risk_score oldest < rec_risk_score newest)%Q).
Proof.
  intros Hw. cbv zeta. rewrite (risk_trend_of_window _ _ _ _ _ Hw).
  destruct (Qgtb (rec_risk_score newest) (rec_risk_score oldest)) eqn:E.
  - apply Qgtb_true in E. split; split; intros H;
      first [exact E | reflexivity | discriminate H | contradiction].
  - apply Qgtb_false in E. split; split; intros H;
      first [discriminate H | reflexivity | exfalso; lra | intros H'; lra].
Qed.

Lemma risk_trend_compares_newest_with_oldest_witness :
  let trend :=
    response_get "risk_trend" (get_user_risk_stats store_after_both "u1") in
  (trend = Some (JStr "increasing")
   <-> (rec_risk_score art_record < rec_risk_score small_record)%Q) /\
  (trend = Some (JStr "stable")
   <-> ~ (rec_risk_score art_record < rec_risk_score small_record)%Q).
Proof.
  apply (risk_trend_compares_newest_with_oldest
           store_after_both "u1" small_record [] art_record).
  vm_compute. reflexivity.
Defined.

(** Without history the response is the four-field object of line 461. *)
Lemma stats_without_history (r : redis) (uid : string) :
  window r uid = [] ->
  get_user_risk_stats r uid
  = [ ("user_id", JStr uid); ("transaction_count", JInt 0);
      ("average_risk_score", JNum 0.0); ("high_risk_transactions", JInt 0) ].
Proof.
  intros Hw. unfold get_user_risk_stats. fold (window r uid).
  rewrite Hw. reflexivity.
Qed.

(** C6 (the code at the failing input): for a user without history the
    response has the three zeroed fields and no "risk_trend" key, which the
    response to a user with history carries. *)
Theorem stats_without_history_lack_trend :
  window ∅ "alice" = [] /\
  get_user_risk_stats ∅ "alice"
  = [ ("user_id", JStr "alice"); ("transaction_count", JInt 0);
      ("average_risk_score", JNum 0.0); ("high_risk_transactions", JInt 0) ] /\
  response_get "risk_trend" (get_user_risk_stats ∅ "alice") = None /\
  response_get "risk_trend"
    (get_user_risk_stats
       (calculate_transaction_risk_score ∅ small_purchase).2 "u1")
  = Some (JStr "stable").
Proof.
  split; [reflexivity|].
  rewrite (stats_without_history ∅ "alice") by reflexivity.
  split; [reflexivity|]. split; [reflexivity|].
  vm_compute. reflexivity.
Qed.

(** ** IP reputation (C9) *)

Example private_addresses_agree :
  spec_private_or_loopback "10.1.2.3" = true /\
  spec_private_or_loopback "172.16.0.9" = true /\
  spec_private_or_loopback "192.168.1.20" = true /\
  spec_private_or_loopback "127.0.0.1" = true /\
  spec_private_or_loopback "8.8.8.8" = false /\
  reputation_score (check_ip_reputation "10.1.2.3") = 0.8%Q /\
  reputation_score (check_ip_reputation "8.8.8.8") = 0.5%Q.
Proof. repeat split. Qed.

(** C9 (the code at the failing input): the public address 172.217.3.110
    is outside 172.16.0.0/12 and receives the score 0.8 of a private
    address; the loopback address 127.0.0.2 receives the default 0.5. *)
Theorem public_address_scored_as_private :
  spec_private_or_loopback "172.217.3.110" = false /\
  reputation_score (check_ip_reputation "172.217.3.110") = 0.8%Q /\
  spec_private_or_loopback "127.0.0.2" = true /\
  reputation_score (check_ip_reputation "127.0.0.2") = 0.5%Q.
Proof. repeat split. Qed.

(** * Further properties of the scorers *)

(** ** What each factor appends *)

Lemma account_age_emits (d : Z) :
  f_flags (account_age_factor d)
  = (if d <? 1 then ["New account (less than 1 day old)"] else []) /\
  f_recs (account_age_factor d)
  = (if d <? 1 then ["Apply enhanced monitoring for new accounts"] else []).
Proof. unfold account_age_factor. factor_cases; split; reflexivity. Qed.

Lemma transaction_count_emits (n : Z) :
  f_flags (transaction_count_factor n)
  = (if n >? 50 then ["High frequency trading pattern"] else []) /\
  f_recs (transaction_count_factor n) = [].
Proof. unfold transaction_count_factor. factor_cases; split; reflexivity. Qed.

Lemma volume_emits (v : pyfloat) :
  f_flags (volume_factor v)
  = (if float_gt_int v 100000 then ["High volume transactions"] else []) /\
  f_recs (volume_factor v)
  = (if float_gt_int v 100000 then ["Verify source of funds"] else []).
Proof. unfold volume_factor. factor_cases; split; reflexivity. Qed.

Lemma login_emits (n : Z) :
  f_flags (login_factor n)
  = (if n >? 5 then ["Multiple failed login attempts"] else []) /\
  f_recs (login_factor n)
  = (if n >? 5 then ["Require password reset and 2FA"] else []).
Proof. unfold login_factor. factor_cases; split; reflexivity. Qed.

Lemma kyc_emits (s : string) :
  f_flags (kyc_factor s)
  = (if String.eqb s "rejected" then ["KYC verification failed"]
     else if String.eqb s "pending" then ["KYC verification pending"]
     else []) /\
  f_recs (kyc_factor s)
  = (if String.eqb s "rejected" then ["Manual review required"] else []).
Proof. unfold kyc_factor. factor_cases; split; reflexivity. Qed.

Lemma ip_factor_silent (ip : string) :
  f_flags (ip_factor (check_ip_reputation ip)) = [] /\
  f_recs (ip_factor (check_ip_reputation ip)) = [].
Proof.
  destruct (ip_factor_checked ip) as [-> | ->]; split; reflexivity.
Qed.

(** The flags and the factor recommendations of a user assessment, as
    lists that depend on six tests. *)
Lemma user_flags_list (u : UserRiskData) :
  flags (calculate_user_risk_score u)
  = (if account_age_days u <? 1
     then ["New account (less than 1 day old)"] else [])
    ++ (if transaction_count u >? 50
        then ["High frequency trading pattern"] else [])
    ++ (if float_gt_int (total_volume u) 100000
        then ["High volume transactions"] else [])
    ++ (if failed_login_attempts u >? 5
        then ["Multiple failed login attempts"] else [])
    ++ (if String.eqb (kyc_status u) "rejected"
        then ["KYC verification failed"]
        else if String.eqb (kyc_status u) "pending"
        then ["KYC verification pending"] else []).
Proof.
  unfold calculate_user_risk_score, user_risk_assessment. cbn [flags].
  rewrite (proj1 (ip_factor_silent _)), (proj1 (account_age_emits _)),
    (proj1 (transaction_count_emits _)), (proj1 (volume_emits _)),
    (proj1 (login_emits _)), (proj1 (kyc_emits _)).
  reflexivity.
Qed.

Lemma user_factor_recommendations_list (u : UserRiskData) :
  recommendations (calculate_user_risk_score u)
  = ((if account_age_days u <? 1
      then ["Apply enhanced monitoring for new accounts"] else [])
     ++ (if float_gt_int (total_volume u) 100000
         then ["Verify source of funds"] else [])
     ++ (if failed_login_attempts u >? 5
         then ["Require password reset and 2FA"] else [])
     ++ (if String.eqb (kyc_status u) "rejected"
         then ["Manual review required"] else []))
    ++ level_recommendations (risk_level (calculate_user_risk_score u)).
Proof.
  unfold calculate_user_risk_score, user_risk_assessment.
  cbn [recommendations risk_level].
  rewrite (proj2 (ip_factor_silent _)), (proj2 (account_age_emits _)),
    (proj2 (transaction_count_emits _)), (proj2 (volume_emits _)),
    (proj2 (login_emits _)), (proj2 (kyc_emits _)).
  cbn [app]. reflexivity.
Qed.

Lemma user_flags_shape (b1 b2 b3 b4 b5 b6 : bool) :
  let fl :=
    (if b1 then ["New account (less than 1 day old)"] else [])
    ++ (if b2 then ["High frequency trading pattern"] else [])
    ++ (if b3 then ["High volume transactions"] else [])
    ++ (if b4 then ["Multiple failed login attempts"] else [])
    ++ (if b5 then ["KYC verification failed"]
        else if b6 then ["KYC verification pending"] else []) in
  (In "New account (less than 1 day old)" fl <-> b1 = true) /\
  (In "High frequency trading pattern" fl <-> b2 = true) /\
  (In "High volume transactions" fl <-> b3 = true) /\
  (In "Multiple failed login attempts" fl <-> b4 = true) /\
  (In "KYC verification failed" fl <-> b5 = true) /\
  (In "KYC verification pending" fl <-> b5 = false /\ b6 = true) /\
  NoDup fl.
Proof.
  destruct b1, b2, b3, b4, b5, b6; cbn [app In];
    repeat match goal with |- _ /\ _ => split end;
    try (intuition discriminate);
    refine (bool_decide_unpack _ _); vm_compute; exact I.
Qed.

(** X1: each flag of a user assessment is present exactly when the test
    of its factor holds: the account is less than a day old, more than 50
    transactions, a volume above 100000, more than 5 failed logins, a
    rejected or a pending KYC status. *)
Theorem user_flags_explain (u : UserRiskData) :
  let fl := flags (calculate_user_risk_score u) in
  (In "New account (less than 1 day old)" fl <-> account_age_days u < 1) /\
  (In "High frequency trading pattern" fl <-> 50 < transaction_count u) /\
  (In "High volume transactions" fl
   <-> float_gt_int (total_volume u) 100000 = true) /\
  (In "Multiple failed login attempts" fl <-> 5 < failed_login_attempts u) /\
  (In "KYC verification failed" fl <-> kyc_status u = "rejected") /\
  (In "KYC verification pending" fl <-> kyc_status u = "pending").
Proof.
  cbv zeta. rewrite user_flags_list.
  destruct (user_flags_shape
              (account_age_days u <? 1) (transaction_count u >? 50)
              (float_gt_int (total_volume u) 100000)
              (failed_login_attempts u >? 5)
              (String.eqb (kyc_status u) "rejected")
              (String.eqb (kyc_status u) "pending"))
    as (H1 & H2 & H3 & H4 & H5 & H6 & _).
  split; [etransitivity; [exact H1 | apply Z.ltb_lt]|].
  split; [etransitivity; [exact H2 | apply Z.gtb_lt]|].
  split; [exact H3|].
  split; [etransitivity; [exact H4 | apply Z.gtb_lt]|].
  split; [etransitivity; [exact H5 | apply String.eqb_eq]|].
  etransitivity; [exact H6|]. rewrite String.eqb_eq. split.
  - intros [_ H]. exact H.
  - intros H. split; [rewrite H; reflexivity | exact H].
Qed.

Lemma user_recommendations_shape (b1 b3 b4 b5 : bool) (lvl : string) :
  lvl = "medium" \/ lvl = "low" ->
  NoDup (((if b1 then ["Apply enhanced monitoring for new accounts"] else [])
          ++ (if b3 then ["Verify source of funds"] else [])
          ++ (if b4 then ["Require password reset and 2FA"] else [])
          ++ (if b5 then ["Manual review required"] else []))
         ++ level_recommendations lvl).
Proof.
  intros [-> | ->]; destruct b1, b3, b4, b5;
    refine (bool_decide_unpack _ _); vm_compute; exact I.
Qed.

(** ** Flags of a transaction assessment *)

Lemma transaction_flags_list
    (l : list HistoryRecord) (tx : TransactionRiskData) :
  flags (transaction_risk_assessment l tx)
  = (if float_gt_int (amount tx) 50000
     then ["Large transaction amount"] else [])
    ++ (if Z.of_nat (length l) >=? 5
        then ["High transaction frequency"] else [])
    ++ (if is_cross_border tx then ["Cross-border transaction"] else [])
    ++ (if (hour (timestamp tx) <? 6) || (hour (timestamp tx) >? 22)
        then ["Transaction outside business hours"] else [])
    ++ (if str_in (payment_method tx) ["crypto"; "anonymous"]
        then ["High-risk payment method"] else [])
    ++ (if str_in (asset_type tx) ["art"; "luxury"; "collectibles"]
        then ["High-risk asset type"] else []).
Proof.
  unfold transaction_risk_assessment. cbn [flags].
  unfold amount_factor, frequency_factor, cross_border_factor, time_factor,
    payment_factor, asset_factor. cbv zeta.
  factor_cases; reflexivity.
Qed.

Lemma transaction_recommendations_list
    (l : list HistoryRecord) (tx : TransactionRiskData) :
  recommendations (transaction_risk_assessment l tx)
  = (if float_gt_int (amount tx) 50000
     then ["Verify source of funds"] else [])
    ++ (if is_cross_border tx
        then ["Verify compliance with international regulations"] else []).
Proof.
  unfold transaction_risk_assessment. cbn [recommendations].
  unfold amount_factor, frequency_factor, cross_border_factor, time_factor,
    payment_factor, asset_factor. cbv zeta.
  factor_cases; reflexivity.
Qed.

Lemma transaction_flags_shape (b1 b2 b3 b4 b5 b6 : bool) :
  let fl :=
    (if b1 then ["Large transaction amount"] else [])
    ++ (if b2 then ["High transaction frequency"] else [])
    ++ (if b3 then ["Cross-border transaction"] else [])
    ++ (if b4 then ["Transaction outside business hours"] else [])
    ++ (if b5 then ["High-risk payment method"] else [])
    ++ (if b6 then ["High-risk asset type"] else []) in
  (In "Large transaction amount" fl <-> b1 = true) /\
  (In "High transaction frequency" fl <-> b2 = true) /\
  (In "Cross-border transaction" fl <-> b3 = true) /\
  (In "Transaction outside business hours" fl <-> b4 = true) /\
  (In "High-risk payment method" fl <-> b5 = true) /\
  (In "High-risk asset type" fl <-> b6 = true) /\
  NoDup fl.
Proof.
  destruct b1, b2, b3, b4, b5, b6; cbn [app In];
    repeat match goal with |- _ /\ _ => split end;
    try (intuition discriminate);
    refine (bool_decide_unpack _ _); vm_compute; exact I.
Qed.

Lemma str_in_two (x a b : string) :
  str_in x [a; b] = true <-> x = a \/ x = b.
Proof.
  unfold str_in. cbn [existsb]. rewrite orb_false_r, orb_true_iff.
  rewrite !String.eqb_eq. reflexivity.
Qed.

Lemma str_in_three (x a b c : string) :
  str_in x [a; b; c] = true <-> x = a \/ x = b \/ x = c.
Proof.
  unfold str_in. cbn [existsb]. rewrite orb_false_r, !orb_true_iff.
  rewrite !String.eqb_eq. reflexivity.
Qed.

Lemma recent_at_least_five (r : redis) (uid : string) :
  (Z.of_nat (length (lrange r (history_key uid) 0 9)) >=? 5) = true
  <-> (5 <= length (window r uid))%nat.
Proof.
  rewrite lrange_recent, length_take, Z.geb_leb, Z.leb_le. lia.
Qed.

(** X2: each flag of a transaction assessment is present exactly when
    the test of its factor holds; the frequency flag, exactly when the
    user's window already holds five entries or more. *)
Theorem transaction_flags_explain (r : redis) (tx : TransactionRiskData) :
  let fl := flags (calculate_transaction_risk_score r tx).1 in
  (In "Large transaction amount" fl
   <-> float_gt_int (amount tx) 50000 = true) /\
  (In "High transaction frequency" fl
   <-> (5 <= length (window r (user_id tx)))%nat) /\
  (In "Cross-border transaction" fl <-> is_cross_border tx = true) /\
  (In "Transaction outside business hours" fl
   <-> hour (timestamp tx) < 6 \/ 22 < hour (timestamp tx)) /\
  (In "High-risk payment method" fl
   <-> payment_method tx = "crypto" \/ payment_method tx = "anonymous") /\
  (In "High-risk asset type" fl
   <-> asset_type tx = "art" \/ asset_type tx = "luxury"
       \/ asset_type tx = "collectibles").
Proof.
  cbv zeta. rewrite calculate_transaction_assessment, transaction_flags_list.
  match goal with
  | |- context [if ?b1 then _ else _] =>
      match goal with
      | |- (In _ (_ ++ (if ?b2 then _ else _) ++ (if ?b3 then _ else _)
                  ++ (if ?b4 then _ else _) ++ (if ?b5 then _ else _)
                  ++ (if ?b6 then _ else _)) <-> _) /\ _ =>
          destruct (transaction_flags_shape b1 b2 b3 b4 b5 b6)
            as (H1 & H2 & H3 & H4 & H5 & H6 & _)
      end
  end.
  split; [exact H1|].
  split; [etransitivity; [exact H2 | apply recent_at_least_five]|].
  split; [exact H3|].
  split.
  { etransitivity; [exact H4|].
    rewrite orb_true_iff, Z.ltb_lt, Z.gtb_lt. reflexivity. }
  split; [etransitivity; [exact H5 | apply str_in_two]|].
  etransitivity; [exact H6 | apply str_in_three].
Qed.

(** X3: no assessment of either scorer lists a flag or a recommendation
    twice. *)
Theorem assessments_without_duplicates
    (u : UserRiskData) (r : redis) (tx : TransactionRiskData) :
  let a := calculate_user_risk_score u in
  let t := (calculate_transaction_risk_score r tx).1 in
  NoDup (flags a) /\ NoDup (recommendations a) /\
  NoDup (flags t) /\ NoDup (recommendations t).
Proof.
  cbv zeta. split; [|split; [|split]].
  - rewrite user_flags_list. apply user_flags_shape.
  - rewrite user_factor_recommendations_list.
    apply user_recommendations_shape, user_level_below_high.
  - rewrite calculate_transaction_assessment, transaction_flags_list.
    apply transaction_flags_shape.
  - rewrite calculate_transaction_assessment, transaction_recommendations_list.
    destruct (float_gt_int (amount tx) 50000), (is_cross_border tx);
      refine (bool_decide_unpack _ _); vm_compute; exact I.
Qed.

(** ** Scores as weighted sums *)

Lemma transaction_sum_lower
    (l : list HistoryRecord) (tx : TransactionRiskData) :
  (0.17 <= sum [ (f_risk (amount_factor (amount tx)) * 0.3)%Q;
                 (f_risk (frequency_factor l) * 0.2)%Q;
                 (f_risk (cross_border_factor (is_cross_border tx)) * 0.15)%Q;
                 (f_risk (time_factor (hour (timestamp tx))) * 0.1)%Q;
                 (f_risk (payment_factor (payment_method tx)) * 0.15)%Q;
                 (f_risk (asset_factor (asset_type tx)) * 0.1)%Q ])%Q.
Proof.
  rewrite sum6.
  pose proof (amount_factor_range (amount tx)).
  pose proof (frequency_factor_range l).
  pose proof (cross_border_factor_range (is_cross_border tx)).
  pose proof (time_factor_range (hour (timestamp tx))).
  pose proof (payment_factor_range (payment_method tx)).
  pose proof (asset_factor_range (asset_type tx)).
  lra.
Qed.

Lemma transaction_score_positive
    (l : list HistoryRecord) (tx : TransactionRiskData) :
  (0 < risk_score (transaction_risk_assessment l tx))%Q.
Proof.
  unfold transaction_risk_assessment. cbn [risk_score].
  pose proof (transaction_sum_lower l tx).
  pose proof (transaction_sum_range l tx).
  rewrite clamp_id; lra.
Qed.

Lemma user_score_sum (u : UserRiskData) :
  (risk_score (calculate_user_risk_score u)
   == 0.2 * (1.0 - reputation_score (check_ip_reputation (u_ip_address u)))
      + 0.15 * f_risk (account_age_factor (account_age_days u))
      + 0.2 * f_risk (transaction_count_factor (transaction_count u))
      + 0.15 * f_risk (volume_factor (total_volume u))
      + 0.1 * f_risk (login_factor (failed_login_attempts u))
      + 0.2 * f_risk (kyc_factor (kyc_status u)))%Q.
Proof.
  pose proof (user_sum_range (u_ip_address u) u) as Huu. cbv zeta in Huu.
  unfold calculate_user_risk_score, user_risk_assessment.
  cbn [risk_score]. rewrite clamp_id by lra.
  rewrite sum6, ip_factor_risk. lra.
Qed.

Lemma transaction_score_sum
    (l : list HistoryRecord) (tx : TransactionRiskData) :
  (risk_score (transaction_risk_assessment l tx)
   == 0.3 * f_risk (amount_factor (amount tx))
      + 0.2 * f_risk (frequency_factor l)
      + 0.15 * f_risk (cross_border_factor (is_cross_border tx))
      + 0.1 * f_risk (time_factor (hour (timestamp tx)))
      + 0.15 * f_risk (payment_factor (payment_method tx))
      + 0.1 * f_risk (asset_factor (asset_type tx)))%Q.
Proof.
  pose proof (transaction_sum_range l tx) as Htu.
  unfold transaction_risk_assessment.
  cbn [risk_score]. rewrite clamp_id by lra.
  rewrite sum6. lra.
Qed.

Lemma ip_factor_of_score (rep rep' : reputation) :
  reputation_score rep = reputation_score rep' ->
  B64.ip_factor rep = B64.ip_factor rep'.
Proof. unfold B64.ip_factor. intros ->. reflexivity. Qed.

Section Binary64Sums.

Import PrimFloat.

(** X4: in binary64, whichever way [sum] adds, the clamp of either
    scorer never applies: the score returned is the sum of the six
    products of line 237, respectively 343, as [sum] computes it.  A user
    scores between 0.12 and 0.7100000000000001, a transaction between
    0.16999999999999998 and 0.66. *)
Theorem scores_are_weighted_sums
    (alg : B64.summation) (u : UserRiskData)
    (recent : list HistoryRecord) (tx : TransactionRiskData) :
  let a := B64.calculate_user_risk_score alg u in
  let t := B64.transaction_risk_assessment alg recent tx in
  B64.risk_score a
  = B64.sum alg
      (B64.user_risk_factors
         (B64.ip_factor (check_ip_reputation (u_ip_address u)))
         (account_age_factor (account_age_days u))
         (transaction_count_factor (transaction_count u))
         (volume_factor (total_volume u))
         (login_factor (failed_login_attempts u))
         (kyc_factor (kyc_status u))) /\
  B64.risk_score t
  = B64.sum alg
      (B64.transaction_risk_factors
         (amount_factor (amount tx))
         (frequency_factor recent)
         (cross_border_factor (is_cross_border tx))
         (time_factor (hour (timestamp tx)))
         (payment_factor (payment_method tx))
         (asset_factor (asset_type tx))) /\
  ((0.12 <=? B64.risk_score a)%float = true /\
   (B64.risk_score a <=? 0.7100000000000001)%float = true) /\
  ((0.16999999999999998 <=? B64.risk_score t)%float = true /\
   (B64.risk_score t <=? 0.66)%float = true).
Proof.
  cbv zeta.
  pose proof (every_user_outcome_sound
    (fun f1 f2 f3 f4 f5 f6 =>
       let a := B64.user_assessment alg f1 f2 f3 f4 f5 f6 in
       Leibniz.eqb (B64.risk_score a)
                   (B64.sum alg (B64.user_risk_factors f1 f2 f3 f4 f5 f6))
       && ((0.12 <=? B64.risk_score a)%float
       && (B64.risk_score a <=? 0.7100000000000001)%float))) as Hu.
  specialize (Hu ltac:(destruct alg; vm_compute; reflexivity) u).
  pose proof (every_transaction_outcome_sound
    (fun f1 f2 f3 f4 f5 f6 =>
       let t := B64.transaction_assessment alg f1 f2 f3 f4 f5 f6 in
       Leibniz.eqb
         (B64.risk_score t)
         (B64.sum alg (B64.transaction_risk_factors f1 f2 f3 f4 f5 f6))
       && ((0.16999999999999998 <=? B64.risk_score t)%float
       && (B64.risk_score t <=? 0.66)%float))) as Ht.
  specialize (Ht ltac:(destruct alg; vm_compute; reflexivity) recent tx).
  unfold B64.calculate_user_risk_score, B64.user_risk_assessment,
    B64.transaction_risk_assessment.
  cbv zeta in Hu, Ht.
  apply andb_prop in Hu as [Hu1 Hu]. apply andb_prop in Hu as [Hu2 Hu3].
  apply andb_prop in Ht as [Ht1 Ht]. apply andb_prop in Ht as [Ht2 Ht3].
  apply FloatAxioms.Leibniz.eqb_spec in Hu1, Ht1.
  split; [exact Hu1|]. split; [exact Ht1|].
  split; split; assumption.
Qed.

(** The four bounds are attained. *)
Example score_bounds_attained :
  B64.risk_score (B64.calculate_user_risk_score B64.LeftToRight boundary_user)
  = 0.7100000000000001%float /\
  B64.risk_score
    (B64.calculate_user_risk_score B64.Compensated
       {| u_user_id := "u3"; u_ip_address := "10.0.0.7";
          transaction_count := 3; total_volume := Finite 1000;
          u_geolocation := None; device_fingerprint := None;
          kyc_status := "verified"; account_age_days := 400;
          failed_login_attempts := 0; suspicious_activity_count := 0 |})
  = 0.12%float /\
  B64.risk_score
    (B64.transaction_risk_assessment B64.LeftToRight [] small_purchase)
  = 0.16999999999999998%float /\
  B64.risk_score
    (B64.transaction_risk_assessment B64.LeftToRight
       (replicate 5 small_record) art_purchase)
  = 0.66%float.
Proof. repeat split; vm_compute; reflexivity. Qed.

(** X5: a request from an address that [check_ip_reputation] trusts (a
    reputation of 0.8) scores less than the same request from an address
    it does not (0.5): in binary64, whichever way [sum] adds, the
    difference is 0.06 up to 1e-15. *)
Theorem trusted_address_lowers_score
    (alg : B64.summation) (u : UserRiskData) (ip1 ip2 : string) :
  reputation_score (check_ip_reputation ip1) = 0.8%Q ->
  reputation_score (check_ip_reputation ip2) = 0.5%Q ->
  let s1 :=
    B64.risk_score (B64.calculate_user_risk_score alg (with_ip_address u ip1)) in
  let s2 :=
    B64.risk_score (B64.calculate_user_risk_score alg (with_ip_address u ip2)) in
  (s1 <? s2)%float = true /\
  (0.059999999999999 <=? s2 - s1)%float = true /\
  (s2 - s1 <=? 0.060000000000001)%float = true.
Proof.
  intros H1 H2. cbv zeta.
  unfold B64.calculate_user_risk_score, B64.user_risk_assessment.
  cbn [with_ip_address u_ip_address account_age_days transaction_count
       total_volume failed_login_attempts kyc_status].
  rewrite (ip_factor_of_score (check_ip_reputation ip1) (reputation_of 0.8))
    by exact H1.
  rewrite (ip_factor_of_score (check_ip_reputation ip2) (reputation_of 0.5))
    by exact H2.
  assert (forallb
            (fun '(f2, (f3, (f4, (f5, f6))))  =>
               let s1 :=
                 B64.risk_score
                   (B64.user_assessment alg (B64.ip_factor (reputation_of 0.8))
                      f2 f3 f4 f5 f6) in
               let s2 :=
                 B64.risk_score
                   (B64.user_assessment alg (B64.ip_factor (reputation_of 0.5))
                      f2 f3 f4 f5 f6) in
               (s1 <? s2)%float
               && ((0.059999999999999 <=? s2 - s1)%float
               && (s2 - s1 <=? 0.060000000000001)%float))
            user_field_outcomes = true) as H
      by (destruct alg; vm_compute; reflexivity).
  rewrite forallb_forall in H.
  specialize (H _ (user_field_outcome u)).
  unfold user_field_results in H. cbv zeta in H.
  apply andb_prop in H as [Ha H]. apply andb_prop in H as [Hb Hc].
  split; [exact Ha|]. split; [exact Hb | exact Hc].
Qed.

Lemma trusted_address_lowers_score_witness :
  let s1 :=
    B64.risk_score
      (B64.calculate_user_risk_score B64.LeftToRight
         (with_ip_address default_user "10.0.0.7")) in
  let s2 :=
    B64.risk_score
      (B64.calculate_user_risk_score B64.LeftToRight
         (with_ip_address default_user "8.8.8.8")) in
  (s1 <? s2)%float = true /\
  (0.059999999999999 <=? s2 - s1)%float = true /\
  (s2 - s1 <=? 0.060000000000001)%float = true.
Proof.
  apply (trusted_address_lowers_score B64.LeftToRight default_user
           "10.0.0.7" "8.8.8.8"); reflexivity.
Defined.

End Binary64Sums.

(** ** The two readings of the scores *)

Lemma agrees_sound (a : RiskAssessment) (b : B64.RiskAssessment) :
  agrees a b = true ->
  B64.risk_level b = risk_level a /\
  B64.flags b = flags a /\
  B64.recommendations b = recommendations a /\
  PrimFloat.leb
    (PrimFloat.abs
       (PrimFloat.sub (B64.risk_score b) (B64.lit (Qred (risk_score a)))))
    (B64.lit (1 # 1000000000000000)) = true.
Proof.
  unfold agrees. intros H.
  apply andb_prop in H as [H1 H]. apply andb_prop in H as [H2 H].
  apply andb_prop in H as [H3 H4].
  apply String.eqb_eq in H1.
  apply bool_decide_eq_true in H2, H3. auto.
Qed.

Lemma user_readings_agree (alg : B64.summation) (u : UserRiskData) :
  agrees (calculate_user_risk_score u) (B64.calculate_user_risk_score alg u)
  = true.
Proof.
  assert (forallb
            (fun score =>
               forallb
                 (fun '(f2, (f3, (f4, (f5, f6)))) =>
                    agrees
                      (exact_user_assessment
                         (ip_factor (reputation_of score)) f2 f3 f4 f5 f6)
                      (B64.user_assessment alg
                         (B64.ip_factor (reputation_of score))
                         f2 f3 f4 f5 f6))
                 user_field_outcomes)
            [0.5%Q; 0.8%Q] = true) as H
      by (destruct alg; vm_compute; reflexivity).
  rewrite forallb_forall in H.
  assert (In (reputation_score (check_ip_reputation (u_ip_address u)))
             [0.5%Q; 0.8%Q]) as Hin.
  { destruct (check_ip_reputation_score (u_ip_address u)) as [-> | ->];
      cbn; auto. }
  specialize (H _ Hin). cbv beta in H. rewrite forallb_forall in H.
  exact (H _ (user_field_outcome u)).
Qed.

Lemma transaction_readings_agree
    (alg : B64.summation) (recent : list HistoryRecord)
    (tx : TransactionRiskData) :
  agrees (transaction_risk_assessment recent tx)
         (B64.transaction_risk_assessment alg recent tx) = true.
Proof.
  exact (every_transaction_outcome_sound
           (fun f1 f2 f3 f4 f5 f6 =>
              agrees (exact_transaction_assessment f1 f2 f3 f4 f5 f6)
                     (B64.transaction_assessment alg f1 f2 f3 f4 f5 f6))
           ltac:(destruct alg; vm_compute; reflexivity) recent tx).
Qed.

Section Binary64Agreement.

Import PrimFloat.

(** X23: the two readings of the scores give the same assessments: for
    every request to either scorer, whichever way [sum] adds, the level,
    the flags and the recommendations computed in binary64 are those
    computed with exact rationals, and the binary64 score is within 1e-15
    of the binary64 number nearest to the exact score. *)
Theorem binary64_agrees_with_exact_reading
    (alg : B64.summation) (u : UserRiskData)
    (r : redis) (tx : TransactionRiskData) :
  let a := calculate_user_risk_score u in
  let b := B64.calculate_user_risk_score alg u in
  let recent := lrange r (history_key (user_id tx)) 0 9 in
  let t := (calculate_transaction_risk_score r tx).1 in
  let s := B64.transaction_risk_assessment alg recent tx in
  (B64.risk_level b = risk_level a /\
   B64.flags b = flags a /\
   B64.recommendations b = recommendations a /\
   (abs (B64.risk_score b - B64.lit (Qred (risk_score a))) <=? 1e-15)%float
   = true) /\
  (B64.risk_level s = risk_level t /\
   B64.flags s = flags t /\
   B64.recommendations s = recommendations t /\
   (abs (B64.risk_score s - B64.lit (Qred (risk_score t))) <=? 1e-15)%float
   = true).
Proof.
  cbv zeta. rewrite calculate_transaction_assessment.
  split.
  - exact (agrees_sound _ _ (user_readings_agree alg u)).
  - exact (agrees_sound _ _ (transaction_readings_agree alg _ tx)).
Qed.

End Binary64Agreement.

(** ** The store: what an evaluation reads and what it leaves alone *)

Lemma history_key_inj (a b : string) :
  history_key a = history_key b -> a = b.
Proof. unfold history_key. apply (inj (String.append _)). Qed.

Lemma stats_read_window (r r' : redis) (uid : string) :
  r' !! history_key uid = r !! history_key uid ->
  get_user_risk_stats r' uid = get_user_risk_stats r uid.
Proof.
  intros H. unfold get_user_risk_stats, lrange. rewrite H. reflexivity.
Qed.

(** X6: evaluating a transaction of one user changes no other key of the
    store: every other user keeps the same window, the same time to live
    and the same statistics. *)
Theorem other_users_untouched
    (r : redis) (tx : TransactionRiskData) (uid : string) :
  user_id tx <> uid ->
  let r' := (calculate_transaction_risk_score r tx).2 in
  (forall key, key <> history_key (user_id tx) -> r' !! key = r !! key) /\
  window r' uid = window r uid /\
  window_ttl r' uid = window_ttl r uid /\
  get_user_risk_stats r' uid = get_user_risk_stats r uid.
Proof.
  intros Hne. cbv zeta.
  assert (forall key, key <> history_key (user_id tx) ->
            (calculate_transaction_risk_score r tx).2 !! key = r !! key) as Hk.
  { intros key Hkey. rewrite calculate_transaction_store.
    apply lookup_insert_ne. congruence. }
  assert (history_key uid <> history_key (user_id tx)) as Hu.
  { intros H. apply history_key_inj in H. congruence. }
  split; [exact Hk|]. split; [|split].
  - rewrite !window_items, (Hk _ Hu). reflexivity.
  - unfold window_ttl. rewrite (Hk _ Hu). reflexivity.
  - apply stats_read_window, Hk, Hu.
Qed.

Lemma other_users_untouched_witness :
  window (calculate_transaction_risk_score store_after_art small_purchase).2
         "u9"
  = window store_after_art "u9".
Proof.
  apply (other_users_untouched store_after_art small_purchase "u9").
  discriminate.
Defined.

Lemma frequency_factor_length (l1 l2 : list HistoryRecord) :
  Nat.min 5 (length l1) = Nat.min 5 (length l2) ->
  frequency_factor l1 = frequency_factor l2.
Proof.
  intros H. unfold frequency_factor.
  destruct (Z.of_nat (length l1) >=? 5) eqn:A5,
           (Z.of_nat (length l1) >=? 3) eqn:A3,
           (Z.of_nat (length l2) >=? 5) eqn:B5,
           (Z.of_nat (length l2) >=? 3) eqn:B3;
    zbool; first [reflexivity | lia].
Qed.

Lemma frequency_factor_monotone (l1 l2 : list HistoryRecord) :
  (length l1 <= length l2)%nat ->
  (f_risk (frequency_factor l1) <= f_risk (frequency_factor l2))%Q.
Proof.
  intros H. unfold frequency_factor.
  destruct (Z.of_nat (length l1) >=? 5) eqn:A5,
           (Z.of_nat (length l1) >=? 3) eqn:A3,
           (Z.of_nat (length l2) >=? 5) eqn:B5,
           (Z.of_nat (length l2) >=? 3) eqn:B3;
    cbn [f_risk fst]; zbool; first [lia | lra].
Qed.

Lemma transaction_assessment_frequency
    (l1 l2 : list HistoryRecord) (tx : TransactionRiskData) :
  frequency_factor l1 = frequency_factor l2 ->
  transaction_risk_assessment l1 tx = transaction_risk_assessment l2 tx.
Proof.
  intros H. unfold transaction_risk_assessment. rewrite H. reflexivity.
Qed.

(** X7: the store reaches a transaction assessment only through the
    number of entries in the user's window, and only up to five: two
    stores whose windows for the user agree in [min 5 length] give the
    same assessment. *)
Theorem assessment_reads_window_length
    (r1 r2 : redis) (tx : TransactionRiskData) :
  Nat.min 5 (length (window r1 (user_id tx)))
  = Nat.min 5 (length (window r2 (user_id tx))) ->
  (calculate_transaction_risk_score r1 tx).1
  = (calculate_transaction_risk_score r2 tx).1.
Proof.
  intros H. rewrite !calculate_transaction_assessment, !lrange_recent.
  apply transaction_assessment_frequency, frequency_factor_length.
  rewrite !length_take. lia.
Qed.

Lemma assessment_reads_window_length_witness :
  (calculate_transaction_risk_score
     (evaluate_all ∅ (replicate 5 small_purchase)).1 art_purchase).1
  = (calculate_transaction_risk_score
       (evaluate_all ∅ (replicate 7 small_purchase)).1 art_purchase).1.
Proof.
  apply (assessment_reads_window_length
           (evaluate_all ∅ (replicate 5 small_purchase)).1
           (evaluate_all ∅ (replicate 7 small_purchase)).1 art_purchase).
  vm_compute. reflexivity.
Defined.

(** X8: a longer window never lowers the score of a request: with more
    retained history for the user the same transaction scores at least as
    much. *)
Theorem longer_history_never_lowers_score
    (r1 r2 : redis) (tx : TransactionRiskData) :
  (length (window r1 (user_id tx)) <= length (window r2 (user_id tx)))%nat ->
  (risk_score (calculate_transaction_risk_score r1 tx).1
   <= risk_score (calculate_transaction_risk_score r2 tx).1)%Q.
Proof.
  intros H. rewrite !calculate_transaction_assessment, !lrange_recent.
  rewrite !transaction_score_sum.
  pose proof (frequency_factor_monotone
                (take 10 (window r1 (user_id tx)))
                (take 10 (window r2 (user_id tx)))) as Hf.
  rewrite !length_take in Hf. specialize (Hf ltac:(lia)). lra.
Qed.

Lemma longer_history_never_lowers_score_witness :
  (risk_score (calculate_transaction_risk_score ∅ art_purchase).1
   <= risk_score (calculate_transaction_risk_score store_after_both
                    art_purchase).1)%Q.
Proof.
  apply (longer_history_never_lowers_score ∅ store_after_both art_purchase).
  vm_compute. lia.
Defined.

(** ** Reachable stores *)

Lemma window_ok_after_evaluation
    (r : redis) (tx : TransactionRiskData) (old : list HistoryRecord) :
  Forall (fun h => (0 < rec_risk_score h < 0.8)%Q) old ->
  window_ok
    {| items :=
         take 20 (tx_record tx (calculate_transaction_risk_score r tx).1 :: old);
       ttl := Some (86400 * 30) |}.
Proof.
  intros Hold. unfold window_ok. cbn [items ttl].
  split; [cbn [take]; discriminate|].
  split; [rewrite length_take; lia|].
  split; [|reflexivity].
  apply Forall_take. constructor; [|exact Hold].
  cbn [tx_record rec_risk_score]. rewrite calculate_transaction_assessment.
  pose proof (transaction_score_positive
                (lrange r (history_key (user_id tx)) 0 9) tx).
  pose proof (transaction_score_range
                (lrange r (history_key (user_id tx)) 0 9) tx).
  lra.
Qed.

Lemma reachable_window_ok (r : redis) :
  reachable r ->
  forall (key : string) (e : redis_list), r !! key = Some e -> window_ok e.
Proof.
  induction 1 as [|r tx Hr IH|r k Hr IH]; intros key e He.
  - rewrite lookup_empty in He. discriminate He.
  - rewrite calculate_transaction_store in He.
    destruct (decide (history_key (user_id tx) = key)) as [<-|Hne].
    + rewrite lookup_insert_eq in He. injection He as <-.
      apply window_ok_after_evaluation.
      rewrite window_items.
      destruct (r !! history_key (user_id tx)) as [e0|] eqn:E0.
      * apply (IH _ _ E0).
      * constructor.
    + rewrite lookup_insert_ne in He by exact Hne. apply (IH _ _ He).
  - apply lookup_delete_Some in He as [_ He]. apply (IH _ _ He).
Qed.

(** X9: in every store the service can leave behind, whatever the
    requests and their order and whichever keys have expired meanwhile, a
    user's window holds at most twenty entries, every stored score is
    positive and below the cut point 0.8 of the level "high", and a window
    that exists carries the thirty-day time to live. *)
Theorem reachable_windows (r : redis) (uid : string) :
  reachable r ->
  (length (window r uid) <= 20)%nat /\
  Forall (fun h => (0 < rec_risk_score h < 0.8)%Q) (window r uid) /\
  (window r uid <> [] -> window_ttl r uid = Some (86400 * 30)).
Proof.
  intros Hr. rewrite window_items. unfold window_ttl.
  destruct (r !! history_key uid) as [e|] eqn:E.
  - destruct (reachable_window_ok r Hr _ _ E) as (_ & Hlen & Hall & Httl).
    cbn [mbind option_bind]. auto.
  - cbn [length]. split; [lia|]. split; [constructor|]. intros H. contradiction.
Qed.

Lemma reachable_windows_witness :
  (length (window store_after_both "u1") <= 20)%nat /\
  Forall (fun h => (0 < rec_risk_score h < 0.8)%Q)
         (window store_after_both "u1") /\
  (window store_after_both "u1" <> [] ->
   window_ttl store_after_both "u1" = Some (86400 * 30)).
Proof.
  apply (reachable_windows store_after_both "u1").
  unfold store_after_both, store_after_art.
  apply reachable_evaluate, reachable_evaluate, reachable_empty.
Defined.

(** ** The statistics of a window *)

Lemma collect_scores_count_from
    (l : list HistoryRecord) (scores : list Q) (n : Z) :
  (fold_left
     (fun '(risk_scores, high_risk_count) tx_data =>
        let risk_score := rec_risk_score tx_data in
        (risk_scores ++ [risk_score],
         if Qgeb risk_score (high RISK_THRESHOLDS)
         then high_risk_count + 1 else high_risk_count))
     l (scores, n)).2
  = n + Z.of_nat
          (length (List.filter (fun h => Qgeb (rec_risk_score h) 0.8) l)).
Proof.
  revert scores n. induction l as [|x l IH]; intros scores n.
  - cbn [fold_left snd List.filter length]. lia.
  - cbn [fold_left List.filter]. rewrite IH.
    change (high RISK_THRESHOLDS) with 0.8%Q.
    destruct (Qgeb (rec_risk_score x) 0.8); cbn [length]; lia.
Qed.

Lemma collect_scores_pair (l : list HistoryRecord) :
  collect_scores l
  = (map rec_risk_score l,
     Z.of_nat (length (List.filter (fun h => Qgeb (rec_risk_score h) 0.8) l))).
Proof.
  rewrite (surjective_pairing (collect_scores l)).
  rewrite collect_scores_list. unfold collect_scores.
  rewrite collect_scores_count_from. reflexivity.
Qed.

Lemma last_cons_default {A : Type} (l : list A) (x d : A) :
  List.last (x :: l) d = List.last l x.
Proof.
  revert x d. induction l as [|y l IH]; intros x d; [reflexivity|].
  change (List.last (x :: y :: l) d) with (List.last (y :: l) d).
  rewrite !IH. reflexivity.
Qed.

Lemma last_score_map (newest : HistoryRecord) (rest : list HistoryRecord) :
  last_score (map rec_risk_score (newest :: rest))
  = rec_risk_score (List.last rest newest).
Proof.
  unfold last_score. cbn [map]. rewrite last_cons_default.
  revert newest. induction rest as [|x rest IH]; intros newest; [reflexivity|].
  cbn [map]. rewrite !last_cons_default. apply IH.
Qed.

Lemma Qgtb_irrefl (q : Q) : Qgtb q q = false.
Proof. apply Qgtb_false. apply Qle_refl. Qed.

(** The response to a user with a window, field by field. *)
Lemma stats_of_window
    (r : redis) (uid : string)
    (newest : HistoryRecord) (rest : list HistoryRecord) :
  window r uid = newest :: rest ->
  get_user_risk_stats r uid
  = [ ("user_id", JStr uid);
      ("transaction_count", JInt (Z.of_nat (length (newest :: rest))));
      ("average_risk_score",
       JNum (mean (map rec_risk_score (newest :: rest))));
      ("high_risk_transactions",
       JInt (Z.of_nat
               (length (List.filter (fun h => Qgeb (rec_risk_score h) 0.8)
                          (newest :: rest)))));
      ("risk_trend",
       JStr (if Qgtb (rec_risk_score newest)
                     (rec_risk_score (List.last rest newest))
             then "increasing" else "stable")) ].
Proof.
  intros Hw. unfold get_user_risk_stats. fold (window r uid). rewrite Hw.
  rewrite collect_scores_pair, last_score_map.
  unfold first_score. cbn [map List.nth].
  repeat f_equal.
  destruct rest as [|x rest].
  - cbn [length List.last]. rewrite Qgtb_irrefl. reflexivity.
  - assert ((Z.of_nat (length (rec_risk_score newest
                                 :: map rec_risk_score (x :: rest))) >? 1)
            = true) as ->; [|reflexivity].
    cbn [length map]. apply Z.gtb_lt. lia.
Qed.

(** X10: for a user with a window the response reports the number of
    retained entries, the mean of their scores, the number of entries
    scoring 0.8 or more, and a trend that compares the newest score with
    the oldest; a window of a single entry is "stable". *)
Theorem stats_report_window
    (r : redis) (uid : string)
    (newest : HistoryRecord) (rest : list HistoryRecord) :
  window r uid = newest :: rest ->
  let resp := get_user_risk_stats r uid in
  response_get "user_id" resp = Some (JStr uid) /\
  response_get "transaction_count" resp
  = Some (JInt (Z.of_nat (length (newest :: rest)))) /\
  response_get "average_risk_score" resp
  = Some (JNum (mean (map rec_risk_score (newest :: rest)))) /\
  response_get "high_risk_transactions" resp
  = Some (JInt (Z.of_nat
                  (length (List.filter
                             (fun h => Qgeb (rec_risk_score h) 0.8)
                             (newest :: rest))))) /\
  response_get "risk_trend" resp
  = Some (JStr (if Qgtb (rec_risk_score newest)
                        (rec_risk_score (List.last rest newest))
                then "increasing" else "stable")) /\
  (rest = [] -> response_get "risk_trend" resp = Some (JStr "stable")).
Proof.
  intros Hw. cbv zeta. rewrite (stats_of_window r uid newest rest Hw).
  repeat split. intros ->. cbn [List.last response_get].
  rewrite Qgtb_irrefl. reflexivity.
Qed.

Lemma stats_report_window_witness :
  response_get "transaction_count"
    (get_user_risk_stats store_after_both "u1") = Some (JInt 2).
Proof.
  apply (stats_report_window store_after_both "u1" small_record [art_record]).
  vm_compute. reflexivity.
Defined.

Lemma sum_from_bounds (lo hi : Q) (l : list Q) (acc : Q) :
  Forall (fun x => (lo <= x <= hi)%Q) l ->
  (acc + lo * inject_Z (Z.of_nat (length l)) <= fold_left Qplus l acc
   <= acc + hi * inject_Z (Z.of_nat (length l)))%Q.
Proof.
  intros H. revert acc. induction H as [|x l Hx Hl IH]; intros acc.
  - cbn [fold_left length]. change (inject_Z (Z.of_nat 0)) with 0%Q. lra.
  - cbn [fold_left length]. specialize (IH (acc + x)%Q).
    rewrite Nat2Z.inj_succ, <- Z.add_1_r, inject_Z_plus.
    change (inject_Z 1) with 1%Q.
    set (n := inject_Z (Z.of_nat (length l))) in *.
    rewrite !Qmult_plus_distr_r, !Qmult_1_r.
    generalize dependent (lo * n)%Q. generalize dependent (hi * n)%Q.
    intros. lra.
Qed.

Lemma mean_between (lo hi : Q) (l : list Q) :
  l <> [] ->
  Forall (fun x => (lo < x < hi)%Q) l ->
  (lo < mean l < hi)%Q.
Proof.
  intros Hne H. destruct H as [|x l Hx Hl]; [contradiction|].
  assert (Forall (fun x => (lo <= x <= hi)%Q) l) as Hl'.
  { eapply Forall_impl; [exact Hl|]. cbv beta. intros y [? ?].
    split; apply Qlt_le_weak; assumption. }
  unfold mean, sum. cbn [fold_left length].
  pose proof (sum_from_bounds lo hi l (0 + x) Hl') as [Hlo Hhi].
  rewrite Nat2Z.inj_succ, <- Z.add_1_r, inject_Z_plus.
  change (inject_Z 1) with 1%Q.
  assert (0 <= inject_Z (Z.of_nat (length l)))%Q as Hn.
  { change 0%Q with (inject_Z 0). rewrite <- Zle_Qle. lia. }
  set (n := inject_Z (Z.of_nat (length l))) in *.
  split.
  - apply Qlt_shift_div_l; [lra|]. rewrite Qmult_plus_distr_r, Qmult_1_r.
    generalize dependent (lo * n)%Q. intros. lra.
  - apply Qlt_shift_div_r; [lra|]. rewrite Qmult_plus_distr_r, Qmult_1_r.
    generalize dependent (hi * n)%Q. intros. lra.
Qed.

Lemma no_high_scores (l : list HistoryRecord) :
  Forall (fun h => (0 < rec_risk_score h < 0.8)%Q) l ->
  List.filter (fun h => Qgeb (rec_risk_score h) 0.8) l = [].
Proof.
  induction 1 as [|x l Hx Hl IH]; [reflexivity|].
  cbn [List.filter].
  assert (Qgeb (rec_risk_score x) 0.8 = false) as ->
      by (apply Qgeb_false; lra).
  exact IH.
Qed.

(** X11: in every store the service can leave behind, the statistics of
    a user with a window report between 1 and 20 transactions, a positive
    average score below the cut point 0.8 of the level "high", and no
    high-risk transaction at all. *)
Theorem reachable_statistics (r : redis) (uid : string) :
  reachable r ->
  window r uid <> [] ->
  exists (n : Z) (average : Q) (trend : string),
    get_user_risk_stats r uid
    = [ ("user_id", JStr uid); ("transaction_count", JInt n);
        ("average_risk_score", JNum average);
        ("high_risk_transactions", JInt 0);
        ("risk_trend", JStr trend) ] /\
    1 <= n <= 20 /\
    (0 < average < 0.8)%Q /\
    (trend = "increasing" \/ trend = "stable").
Proof.
  intros Hr Hne.
  assert ((length (window r uid) <= 20)%nat /\
          Forall (fun h => (0 < rec_risk_score h < 0.8)%Q)
                 (window r uid)) as [Hlen Hall].
  { rewrite window_items.
    destruct (r !! history_key uid) as [e|] eqn:E.
    - destruct (reachable_window_ok r Hr _ _ E) as (_ & ? & ? & _). auto.
    - split; [cbn [length]; lia | constructor]. }
  destruct (window r uid) as [|newest rest] eqn:Hw; [contradiction|].
  rewrite (stats_of_window r uid newest rest Hw).
  rewrite (no_high_scores _ Hall).
  eexists _, _, _. split; [reflexivity|].
  split; [cbn [length] in *; lia|].
  split.
  - apply mean_between; [discriminate|].
    apply Forall_map. exact Hall.
  - destruct (Qgtb _ _); auto.
Qed.

Lemma reachable_statistics_witness :
  exists (n : Z) (average : Q) (trend : string),
    get_user_risk_stats store_after_both "u1"
    = [ ("user_id", JStr "u1"); ("transaction_count", JInt n);
        ("average_risk_score", JNum average);
        ("high_risk_transactions", JInt 0);
        ("risk_trend", JStr trend) ] /\
    1 <= n <= 20 /\
    (0 < average < 0.8)%Q /\
    (trend = "increasing" \/ trend = "stable").
Proof.
  apply (reachable_statistics store_after_both "u1").
  - unfold store_after_both, store_after_art.
    apply reachable_evaluate, reachable_evaluate, reachable_empty.
  - vm_compute. discriminate.
Defined.

(** X12: evaluations for one user fill the window up to twenty entries
    and no further: after one or more evaluations the window holds the
    smaller of 20 and the number of evaluations plus what was retained
    before, and that is the [transaction_count] of the statistics. *)
Theorem window_fills_to_twenty
    (txs : list TransactionRiskData) (r : redis) (uid : string) :
  Forall (fun t => user_id t = uid) txs ->
  txs <> [] ->
  let rN := (evaluate_all r txs).1 in
  let n := Nat.min 20 (length txs + length (window r uid)) in
  length (window rN uid) = n /\
  response_get "transaction_count" (get_user_risk_stats rN uid)
  = Some (JInt (Z.of_nat n)).
Proof.
  intros Hall Hne. cbv zeta.
  assert (length (evaluate_all r txs).2 = length txs) as Hrecs.
  { rewrite <- (length_map amount txs).
    rewrite <- (proj1 (evaluate_all_records txs r)).
    rewrite length_map. reflexivity. }
  assert (length (window (evaluate_all r txs).1 uid)
          = Nat.min 20 (length txs + length (window r uid))) as Hlen.
  { rewrite window_after_evaluations by assumption.
    rewrite length_take, length_app, length_rev, Hrecs. reflexivity. }
  split; [exact Hlen|].
  destruct (window (evaluate_all r txs).1 uid) as [|newest rest] eqn:Hw.
  - destruct txs; [contradiction | cbn [length] in Hlen; lia].
  - rewrite (stats_of_window _ uid newest rest Hw), <- Hlen. reflexivity.
Qed.

Lemma window_fills_to_twenty_witness :
  let rN := (evaluate_all ∅ (replicate 30 small_purchase)).1 in
  length (window rN "u1") = 20%nat /\
  response_get "transaction_count" (get_user_risk_stats rN "u1")
  = Some (JInt 20).
Proof.
  apply (window_fills_to_twenty (replicate 30 small_purchase) ∅ "u1").
  - cbn [replicate]. repeat (constructor; [reflexivity|]). constructor.
  - discriminate.
Defined.

(** ** Recommendations *)

Lemma user_recommendations_members (b1 b3 b4 b5 m : bool) :
  let recs :=
    ((if b1 then ["Apply enhanced monitoring for new accounts"] else [])
     ++ (if b3 then ["Verify source of funds"] else [])
     ++ (if b4 then ["Require password reset and 2FA"] else [])
     ++ (if b5 then ["Manual review required"] else []))
    ++ level_recommendations (if m then "medium" else "low") in
  (In "Apply enhanced monitoring for new accounts" recs <-> b1 = true) /\
  (In "Verify source of funds" recs <-> b3 = true) /\
  (In "Require password reset and 2FA" recs <-> b4 = true) /\
  (In "Manual review required" recs <-> b5 = true) /\
  (In "Apply enhanced monitoring" recs <-> m = true) /\
  (In "Require additional verification" recs <-> m = true).
Proof.
  destruct b1, b3, b4, b5, m; cbn;
    repeat match goal with |- _ /\ _ => split end;
    intuition discriminate.
Qed.

Lemma user_level_medium (u : UserRiskData) :
  risk_level (calculate_user_risk_score u)
  = if Qle_bool 0.6 (risk_score (calculate_user_risk_score u))
    then "medium" else "low".
Proof.
  pose proof (user_score_range u) as Hs.
  rewrite user_level.
  destruct (determine_risk_level_classified
              (risk_score (calculate_user_risk_score u)))
    as (_ & _ & Hm & Hl).
  destruct (Qle_bool 0.6 _) eqn:E.
  - apply Qle_bool_iff in E. apply Hm. lra.
  - apply (Qgeb_false _ 0.6) in E. apply Hl. exact E.
Qed.

(** X13: every recommendation of a user assessment is present exactly
    when its condition holds: the four factor recommendations with the
    test of their factor, and the two monitoring recommendations of the
    "medium" level when the score is 0.6 or more. *)
Theorem user_recommendations_explain (u : UserRiskData) :
  let a := calculate_user_risk_score u in
  (In "Apply enhanced monitoring for new accounts" (recommendations a)
   <-> account_age_days u < 1) /\
  (In "Verify source of funds" (recommendations a)
   <-> float_gt_int (total_volume u) 100000 = true) /\
  (In "Require password reset and 2FA" (recommendations a)
   <-> 5 < failed_login_attempts u) /\
  (In "Manual review required" (recommendations a)
   <-> kyc_status u = "rejected") /\
  (In "Apply enhanced monitoring" (recommendations a)
   <-> (0.6 <= risk_score a)%Q) /\
  (In "Require additional verification" (recommendations a)
   <-> (0.6 <= risk_score a)%Q).
Proof.
  cbv zeta. rewrite user_factor_recommendations_list, user_level_medium.
  destruct (user_recommendations_members
              (account_age_days u <? 1)
              (float_gt_int (total_volume u) 100000)
              (failed_login_attempts u >? 5)
              (String.eqb (kyc_status u) "rejected")
              (Qle_bool 0.6 (risk_score (calculate_user_risk_score u))))
    as (H1 & H3 & H4 & H5 & H6 & H7).
  split; [etransitivity; [exact H1 | apply Z.ltb_lt]|].
  split; [exact H3|].
  split; [etransitivity; [exact H4 | apply Z.gtb_lt]|].
  split; [etransitivity; [exact H5 | apply String.eqb_eq]|].
  split; (etransitivity; [eassumption | apply Qle_bool_iff]).
Qed.

(** X14: a transaction assessment recommends "Verify source of funds"
    exactly for an amount above 50000 and "Verify compliance with
    international regulations" exactly for a cross-border transaction, and
    nothing else, whatever its level. *)
Theorem transaction_recommendations_explain
    (r : redis) (tx : TransactionRiskData) :
  let recs := recommendations (calculate_transaction_risk_score r tx).1 in
  (In "Verify source of funds" recs
   <-> float_gt_int (amount tx) 50000 = true) /\
  (In "Verify compliance with international regulations" recs
   <-> is_cross_border tx = true) /\
  (forall x, In x recs ->
     x = "Verify source of funds"
     \/ x = "Verify compliance with international regulations").
Proof.
  cbv zeta.
  rewrite calculate_transaction_assessment, transaction_recommendations_list.
  destruct (float_gt_int (amount tx) 50000), (is_cross_border tx);
    cbn [app In]; repeat split; intros;
    intuition (subst; auto; try discriminate).
Qed.

(** ** What "medium" requires *)

Lemma kyc_factor_other (status : string) :
  status <> "rejected" -> status <> "pending" ->
  kyc_factor status = (0.1%Q, [], []).
Proof.
  intros Hr Hp. unfold kyc_factor.
  apply String.eqb_neq in Hr, Hp. rewrite Hr, Hp. reflexivity.
Qed.

Lemma user_score_other_kyc (u : UserRiskData) :
  kyc_status u <> "rejected" -> kyc_status u <> "pending" ->
  (risk_score (calculate_user_risk_score u) < 0.6)%Q.
Proof.
  intros Hr Hp. rewrite user_score_sum.
  rewrite (kyc_factor_other _ Hr Hp). cbn [f_risk fst].
  pose proof (account_age_factor_range (account_age_days u)).
  pose proof (transaction_count_factor_range (transaction_count u)).
  pose proof (volume_factor_range (total_volume u)).
  pose proof (login_factor_range (failed_login_attempts u)).
  destruct (check_ip_reputation_score (u_ip_address u)) as [-> | ->]; lra.
Qed.

Lemma amount_factor_small (a : pyfloat) :
  float_gt_int a 50000 = false -> (f_risk (amount_factor a) <= 0.5)%Q.
Proof.
  intros H. unfold amount_factor. rewrite H.
  destruct (float_gt_int a 10000); cbn [f_risk fst]; lra.
Qed.

Lemma frequency_factor_small (l : list HistoryRecord) :
  (length l < 3)%nat -> (f_risk (frequency_factor l) <= 0.1)%Q.
Proof.
  intros H. unfold frequency_factor.
  destruct (Z.of_nat (length l) >=? 5) eqn:E5; [zbool; lia|].
  destruct (Z.of_nat (length l) >=? 3) eqn:E3; [zbool; lia|].
  cbn [f_risk fst]. lra.
Qed.

Lemma transaction_medium_needs
    (l : list HistoryRecord) (tx : TransactionRiskData) :
  (0.6 <= risk_score (transaction_risk_assessment l tx))%Q ->
  float_gt_int (amount tx) 50000 = true /\ (3 <= length l)%nat.
Proof.
  rewrite transaction_score_sum. intros Hs.
  pose proof (amount_factor_range (amount tx)).
  pose proof (frequency_factor_range l).
  pose proof (cross_border_factor_range (is_cross_border tx)).
  pose proof (time_factor_range (hour (timestamp tx))).
  pose proof (payment_factor_range (payment_method tx)).
  pose proof (asset_factor_range (asset_type tx)).
  split.
  - destruct (float_gt_int (amount tx) 50000) eqn:E; [reflexivity|].
    pose proof (amount_factor_small _ E). exfalso. lra.
  - destruct (le_lt_dec 3 (length l)) as [Hge|Hlt]; [exact Hge|].
    pose proof (frequency_factor_small _ Hlt). exfalso. lra.
Qed.

Lemma level_medium_score (s : Q) :
  determine_risk_level s = "medium" -> (0.6 <= s)%Q.
Proof.
  intros Hm.
  destruct (determine_risk_level_classified s) as (_ & _ & _ & Hl).
  destruct (Qlt_le_dec s 0.6) as [Hlt|Hge]; [|exact Hge].
  rewrite (Hl Hlt) in Hm. discriminate Hm.
Qed.

(** X15: a user assessment is "medium" only for a rejected or pending
    KYC status, and a transaction assessment only for an amount above
    50000 from a user with at least three retained entries; every other
    request is classified "low". *)
Theorem medium_requires
    (u : UserRiskData) (r : redis) (tx : TransactionRiskData) :
  (risk_level (calculate_user_risk_score u) = "medium" ->
   kyc_status u = "rejected" \/ kyc_status u = "pending") /\
  (risk_level (calculate_transaction_risk_score r tx).1 = "medium" ->
   float_gt_int (amount tx) 50000 = true /\
   (3 <= length (window r (user_id tx)))%nat).
Proof.
  split.
  - intros Hm. rewrite user_level in Hm. apply level_medium_score in Hm.
    destruct (String.eqb (kyc_status u) "rejected") eqn:Er;
      [left; apply String.eqb_eq, Er|].
    destruct (String.eqb (kyc_status u) "pending") eqn:Ep;
      [right; apply String.eqb_eq, Ep|].
    apply String.eqb_neq in Er, Ep.
    pose proof (user_score_other_kyc u Er Ep). exfalso. lra.
  - rewrite calculate_transaction_assessment, lrange_recent, transaction_level.
    intros Hm. apply level_medium_score, transaction_medium_needs in Hm.
    destruct Hm as [Ha Hl]. split; [exact Ha|].
    rewrite length_take in Hl. lia.
Qed.

Example medium_reached :
  risk_level (calculate_user_risk_score boundary_user) = "medium" /\
  risk_level
    (calculate_transaction_risk_score
       (evaluate_all ∅ (replicate 5 small_purchase)).1 art_purchase).1
  = "medium".
Proof. split; vm_compute; reflexivity. Qed.

(** X16: a KYC status other than the exact strings "rejected" and
    "pending" is scored like "verified": the assessment is the same,
    whatever the spelling. *)
Theorem unknown_kyc_status_counts_as_verified (u : UserRiskData) :
  kyc_status u <> "rejected" ->
  kyc_status u <> "pending" ->
  calculate_user_risk_score u
  = calculate_user_risk_score (with_kyc_status u "verified").
Proof.
  intros Hr Hp.
  unfold calculate_user_risk_score, user_risk_assessment.
  cbn [with_kyc_status u_ip_address account_age_days transaction_count
       total_volume failed_login_attempts kyc_status].
  rewrite (kyc_factor_other _ Hr Hp).
  rewrite (kyc_factor_other "verified") by discriminate.
  reflexivity.
Qed.

Lemma unknown_kyc_status_counts_as_verified_witness :
  calculate_user_risk_score (with_kyc_status boundary_user "REJECTED")
  = calculate_user_risk_score
      (with_kyc_status (with_kyc_status boundary_user "REJECTED") "verified").
Proof.
  apply (unknown_kyc_status_counts_as_verified
           (with_kyc_status boundary_user "REJECTED")); discriminate.
Defined.

Lemma medium_requires_witness :
  kyc_status boundary_user = "rejected" \/ kyc_status boundary_user = "pending".
Proof.
  apply (medium_requires boundary_user ∅ art_purchase).
  vm_compute. reflexivity.
Defined.

(** ** Monotonicity of the user score in every numeric field *)

Lemma transaction_count_factor_monotone (n1 n2 : Z) :
  n1 <= n2 ->
  (f_risk (transaction_count_factor n1)
   <= f_risk (transaction_count_factor n2))%Q.
Proof.
  intros H. unfold transaction_count_factor.
  destruct (n1 >? 50) eqn:A1, (n1 >? 20) eqn:A2,
           (n2 >? 50) eqn:B1, (n2 >? 20) eqn:B2;
    cbn [f_risk fst]; zbool; first [lia | lra].
Qed.

Lemma login_factor_monotone (n1 n2 : Z) :
  n1 <= n2 ->
  (f_risk (login_factor n1) <= f_risk (login_factor n2))%Q.
Proof.
  intros H. unfold login_factor.
  destruct (n1 >? 5) eqn:A1, (n1 >? 2) eqn:A2,
           (n2 >? 5) eqn:B1, (n2 >? 2) eqn:B2;
    cbn [f_risk fst]; zbool; first [lia | lra].
Qed.

Lemma volume_factor_monotone (v1 v2 : pyfloat) :
  v1 = v2 \/ float_lt v1 v2 = true ->
  (f_risk (volume_factor v1) <= f_risk (volume_factor v2))%Q.
Proof.
  intros [-> | H]; [apply Qle_refl|]. unfold volume_factor.
  pose proof (float_gt_int_mono v1 v2 100000 H) as H1.
  pose proof (float_gt_int_mono v1 v2 50000 H) as H5.
  destruct (float_gt_int v1 100000), (float_gt_int v1 50000);
    try rewrite (H1 eq_refl); try rewrite (H5 eq_refl);
    destruct (float_gt_int v2 100000), (float_gt_int v2 50000);
    cbn [f_risk fst]; lra.
Qed.

(** X17: between two user requests from the same address and with the
    same KYC status, the one with the younger account and with no fewer
    transactions, no smaller volume and no fewer failed logins never
    scores less. *)
Theorem user_score_monotone (u1 u2 : UserRiskData) :
  u_ip_address u1 = u_ip_address u2 ->
  kyc_status u1 = kyc_status u2 ->
  account_age_days u2 <= account_age_days u1 ->
  transaction_count u1 <= transaction_count u2 ->
  total_volume u1 = total_volume u2
  \/ float_lt (total_volume u1) (total_volume u2) = true ->
  failed_login_attempts u1 <= failed_login_attempts u2 ->
  (risk_score (calculate_user_risk_score u1)
   <= risk_score (calculate_user_risk_score u2))%Q.
Proof.
  intros Hip Hk Ha Ht Hv Hl. rewrite !user_score_sum, Hip, Hk.
  pose proof (account_age_factor_antitone _ _ Ha).
  pose proof (transaction_count_factor_monotone _ _ Ht).
  pose proof (volume_factor_monotone _ _ Hv).
  pose proof (login_factor_monotone _ _ Hl).
  lra.
Qed.

Lemma user_score_monotone_witness :
  (risk_score (calculate_user_risk_score default_user)
   <= risk_score (calculate_user_risk_score (with_kyc_status boundary_user "pending")))%Q.
Proof.
  apply (user_score_monotone default_user
           (with_kyc_status boundary_user "pending"));
    try reflexivity; try (vm_compute; discriminate).
  right. reflexivity.
Defined.

(** * The chat agent's conversation store *)

Section ChatProperties.

Variable qa_chain : list Chat.memory_message -> string -> option string.
Variable llm : string -> option string.
Variable vectorstore : bool.

Lemma chat_session_id
    (t1 t2 t3 : string) (r : Chat.redis) (q : Chat.ChatMessage)
    (resp : Chat.ChatResponse) (r' : Chat.redis) :
  Chat.chat qa_chain llm vectorstore t1 t2 t3 r q = (Chat.Ok resp, r') ->
  Chat.response_session_id resp
  = match Chat.session_id q with
    | Some "" | None => Chat.user_id q +:+ "_" +:+ t1
    | Some s => s
    end.
Proof.
  unfold Chat.chat. cbv zeta.
  destruct (if vectorstore then _ else _) as [a|]; [|discriminate].
  intros [= <- _]. reflexivity.
Qed.

(** X18: a chat request either fails with status 500 and leaves the
    store as it was, or appends exactly one exchange (the user's message
    and the reply) to the stored conversation of its session, sets the
    time to live of that key to 86400 seconds and changes no other key;
    a non-empty session id of the request is the one used. *)
Theorem chat_appends_one_exchange
    (t1 t2 t3 : string) (r : Chat.redis) (q : Chat.ChatMessage) :
  match Chat.chat qa_chain llm vectorstore t1 t2 t3 r q with
  | (Chat.HttpError status_code, r') => status_code = 500 /\ r' = r
  | (Chat.Ok resp, r') =>
      let key := Chat.history_key (Chat.response_session_id resp) in
      r' !! key
      = Some {| Chat.value :=
                  Chat.load_history r key
                  ++ [ {| Chat.human := Chat.message q;
                          Chat.ai := Chat.reply resp;
                          Chat.timestamp := t2 |} ];
                Chat.ttl := 86400 |} /\
      (forall k, k <> key -> r' !! k = r !! k) /\
      (forall s, Chat.session_id q = Some s -> s <> "" ->
                 Chat.response_session_id resp = s)
  end.
Proof.
  destruct (Chat.chat qa_chain llm vectorstore t1 t2 t3 r q)
    as [[resp|code] r'] eqn:E.
  - pose proof (chat_session_id _ _ _ _ _ _ _ E) as Hsid.
    unfold Chat.chat in E. cbv zeta in E.
    rewrite <- Hsid in E.
    destruct (if vectorstore then _ else _) as [a|]; [|discriminate].
    injection E as <- <-. cbn [Chat.response_session_id Chat.reply].
    split; [apply lookup_insert_eq|].
    split; [intros k Hk; apply lookup_insert_ne; congruence|].
    intros s Hs Hne. cbn [Chat.response_session_id] in Hsid.
    rewrite Hsid, Hs. destruct s; [contradiction | reflexivity].
  - unfold Chat.chat in E. cbv zeta in E.
    destruct (if vectorstore then _ else _) as [a|]; [discriminate|].
    injection E as <- <-. split; reflexivity.
Qed.

End ChatProperties.






Section ChatSequences.

Variable qa_chain : list Chat.memory_message -> string -> option string.
Variable llm : string -> option string.
Variable vectorstore : bool.

Lemma chat_success_history
    (t1 t2 t3 : string) (r : Chat.redis) (q : Chat.ChatMessage)
    (s : string) (resp : Chat.ChatResponse) (r' : Chat.redis) :
  Chat.session_id q = Some s -> s <> "" ->
  Chat.chat qa_chain llm vectorstore t1 t2 t3 r q = (Chat.Ok resp, r') ->
  Chat.load_history r' (Chat.history_key s)
  = Chat.load_history r (Chat.history_key s)
    ++ [ {| Chat.human := Chat.message q; Chat.ai := Chat.reply resp;
            Chat.timestamp := t2 |} ].
Proof.
  intros Hs Hne E. unfold Chat.chat in E. cbv zeta in E. rewrite Hs in E.
  destruct s as [|c s]; [contradiction|].
  destruct (if vectorstore then _ else _) as [a|]; [|discriminate].
  injection E as <- <-. cbn [Chat.reply].
  unfold Chat.load_history at 1. rewrite lookup_insert_eq. reflexivity.
Qed.

Lemma chat_all_cons
    (t1 t2 t3 : string) (q : Chat.ChatMessage) (r : Chat.redis)
    (rest : list (string * string * string * Chat.ChatMessage)) :
  Chat.chat_all qa_chain llm vectorstore r ((t1, t2, t3, q) :: rest)
  = ((Chat.chat qa_chain llm vectorstore t1 t2 t3 r q).1
     :: (Chat.chat_all qa_chain llm vectorstore
           (Chat.chat qa_chain llm vectorstore t1 t2 t3 r q).2 rest).1,
     (Chat.chat_all qa_chain llm vectorstore
        (Chat.chat qa_chain llm vectorstore t1 t2 t3 r q).2 rest).2).
Proof.
  cbn [Chat.chat_all].
  destruct (Chat.chat qa_chain llm vectorstore t1 t2 t3 r q) as [o r'].
  cbn [fst snd].
  destruct (Chat.chat_all qa_chain llm vectorstore r' rest) as [os r''].
  reflexivity.
Qed.

Lemma chat_failure_store
    (t1 t2 t3 : string) (r : Chat.redis) (q : Chat.ChatMessage)
    (status_code : Z) (r' : Chat.redis) :
  Chat.chat qa_chain llm vectorstore t1 t2 t3 r q
  = (Chat.HttpError status_code, r') ->
  r' = r.
Proof.
  unfold Chat.chat. cbv zeta.
  destruct (if vectorstore then _ else _) as [a|]; [discriminate|].
  intros [= _ <-]. reflexivity.
Qed.

Lemma chat_all_length
    (requests : list (string * string * string * Chat.ChatMessage))
    (r : Chat.redis) :
  length (Chat.chat_all qa_chain llm vectorstore r requests).1
  = length requests.
Proof.
  revert r. induction requests as [|[[[t1 t2] t3] q] rest IH]; intros r.
  - reflexivity.
  - rewrite chat_all_cons. cbn [fst length]. rewrite IH. reflexivity.
Qed.

Lemma appended_all_succeeded
    (requests : list (string * string * string * Chat.ChatMessage))
    (outcomes : list (Chat.outcome Chat.ChatResponse)) :
  length outcomes = length requests ->
  Forall Chat.succeeded outcomes ->
  length (Chat.appended requests outcomes) = length requests.
Proof.
  revert outcomes.
  induction requests as [|[[[t1 t2] t3] q] rest IH]; intros outcomes Hlen Hok.
  - reflexivity.
  - destruct outcomes as [|o outcomes]; [discriminate Hlen|].
    apply Forall_cons in Hok as [Ho Hok].
    destruct o as [resp|code]; [|contradiction].
    cbn [Chat.appended length]. rewrite IH; [reflexivity | | exact Hok].
    cbn [length] in Hlen. lia.
Qed.

(** X20: the stored conversation of a session is never shortened by
    [chat]: after any number of requests of one session it holds what it
    held before followed by one exchange for each request that was
    answered, in the order of the requests; the exchange holds the message
    of the request, the reply of its response and the second clock reading
    of the request.  A request that failed leaves no exchange.  When every
    request was answered the conversation has grown by the number of
    requests. *)
Theorem stored_conversation_grows
    (requests : list (string * string * string * Chat.ChatMessage))
    (r : Chat.redis) (s : string) :
  s <> "" ->
  Forall (fun q => Chat.session_id q.2 = Some s) requests ->
  let stored r := Chat.load_history r (Chat.history_key s) in
  let outcomes := (Chat.chat_all qa_chain llm vectorstore r requests).1 in
  let final := (Chat.chat_all qa_chain llm vectorstore r requests).2 in
  stored final = stored r ++ Chat.appended requests outcomes /\
  length outcomes = length requests /\
  (Forall Chat.succeeded outcomes ->
   length (stored final) = (length (stored r) + length requests)%nat).
Proof.
  intros Hne Hs. cbv zeta.
  assert (Chat.load_history
            (Chat.chat_all qa_chain llm vectorstore r requests).2
            (Chat.history_key s)
          = Chat.load_history r (Chat.history_key s)
            ++ Chat.appended requests
                 (Chat.chat_all qa_chain llm vectorstore r requests).1) as H.
  { revert r.
    induction requests as [|[[[t1 t2] t3] q] rest IH]; intros r.
    - cbn [Chat.chat_all fst snd Chat.appended]. rewrite app_nil_r.
      reflexivity.
    - rewrite chat_all_cons. cbn [fst snd].
      apply Forall_cons in Hs as [Hq Hs]. cbn [snd] in Hq.
      destruct (Chat.chat qa_chain llm vectorstore t1 t2 t3 r q)
        as [[resp|code] r'] eqn:E; cbn [fst snd Chat.appended].
      + rewrite (IH Hs r').
        rewrite (chat_success_history _ _ _ _ _ _ _ _ Hq Hne E).
        rewrite <- app_assoc. reflexivity.
      + rewrite (IH Hs r').
        rewrite (chat_failure_store _ _ _ _ _ _ _ E). reflexivity. }
  split; [exact H|].
  split; [apply chat_all_length|].
  intros Hok. rewrite H, length_app.
  rewrite appended_all_succeeded; [reflexivity | apply chat_all_length | exact Hok].
Qed.

(** X21: clearing a session removes its conversation and touches no
    other key; the next request of that session reaches the model with
    an empty memory and, when it succeeds, leaves a conversation of
    exactly one exchange. *)
Theorem clear_starts_afresh
    (t1 t2 t3 : string) (r : Chat.redis) (q : Chat.ChatMessage)
    (s : string) :
  Chat.session_id q = Some s -> s <> "" ->
  let r1 := (Chat.clear_chat_history r s).2 in
  Chat.load_history r1 (Chat.history_key s) = [] /\
  (forall k, k <> Chat.history_key s -> r1 !! k = r !! k) /\
  Chat.memory_of (Chat.load_history r1 (Chat.history_key s)) = [] /\
  (forall resp r2,
     Chat.chat qa_chain llm vectorstore t1 t2 t3 r1 q = (Chat.Ok resp, r2) ->
     Chat.load_history r2 (Chat.history_key s)
     = [ {| Chat.human := Chat.message q; Chat.ai := Chat.reply resp;
            Chat.timestamp := t2 |} ]).
Proof.
  intros Hs Hne. cbv zeta. cbn [Chat.clear_chat_history snd].
  assert (Chat.load_history (delete (Chat.history_key s) r)
                            (Chat.history_key s) = []) as Hempty.
  { unfold Chat.load_history. rewrite lookup_delete_eq. reflexivity. }
  split; [exact Hempty|].
  split; [intros k Hk; apply lookup_delete_ne; congruence|].
  split; [rewrite Hempty; reflexivity|].
  intros resp r2 E.
  rewrite (chat_success_history _ _ _ _ _ _ _ _ Hs Hne E), Hempty.
  reflexivity.
Qed.

End ChatSequences.

Lemma stored_conversation_grows_witness :
  let qa := fun (_ : list Chat.memory_message) (q : string) =>
              if String.eqb q "fail" then None else Some ("re: " +:+ q) in
  let none := fun (_ : string) => @None string in
  let requests :=
    [ ("1.0", "t1", "t1", Chat.mk_ChatMessage "hello" "u1" (Some "s1"));
      ("2.0", "t2", "t2", Chat.mk_ChatMessage "fail" "u1" (Some "s1"));
      ("3.0", "t3", "t3", Chat.mk_ChatMessage "what is KYC" "u1" (Some "s1")) ] in
  Chat.load_history (Chat.chat_all qa none true ∅ requests).2
                    (Chat.history_key "s1")
  = [ Chat.mk_exchange "hello" "re: hello" "t1";
      Chat.mk_exchange "what is KYC" "re: what is KYC" "t3" ].
Proof.
  cbv zeta.
  refine (eq_trans
    (proj1 (stored_conversation_grows
              (fun _ q => if String.eqb q "fail" then None
                          else Some ("re: " +:+ q))
              (fun _ => None) true
              [ ("1.0", "t1", "t1",
                 Chat.mk_ChatMessage "hello" "u1" (Some "s1"));
                ("2.0", "t2", "t2",
                 Chat.mk_ChatMessage "fail" "u1" (Some "s1"));
                ("3.0", "t3", "t3",
                 Chat.mk_ChatMessage "what is KYC" "u1" (Some "s1")) ]
              ∅ "s1" _ _)) _).
  - discriminate.
  - repeat constructor.
  - vm_compute. reflexivity.
Defined.

Lemma clear_starts_afresh_witness :
  Chat.load_history
    (Chat.clear_chat_history
       (Chat.chat (fun _ q => Some q) (fun _ => None) true "1.0" "t1" "t1" ∅
          (Chat.mk_ChatMessage "hello" "u1" (Some "s1"))).2 "s1").2
    (Chat.history_key "s1") = [].
Proof.
  apply (clear_starts_afresh (fun _ q => Some q) (fun _ => None) true
           "2.0" "t2" "t2"
           (Chat.chat (fun _ q => Some q) (fun _ => None) true "1.0" "t1" "t1" ∅
              (Chat.mk_ChatMessage "hello" "u1" (Some "s1"))).2
           (Chat.mk_ChatMessage "again" "u1" (Some "s1")) "s1").
  - reflexivity.
  - discriminate.
Defined.

(** * The document agent's confidence *)

Lemma counted_values (o1 o2 o3 o4 o5 o6 o7 : option string) :
  let found :=
    Z.of_nat (length (List.filter Nlp.filled [o1; o2; o3; o4; o5; o6; o7])) in
  Z.of_nat
    (length
       (List.filter Nlp.counted
          [ Nlp.of_option o1; Nlp.of_option o2; Nlp.of_option o3;
            Nlp.of_option o4; Nlp.of_option o5; Nlp.of_option o6;
            Nlp.of_option o7; Nlp.PFloat 0.0 ]))
  = found + 1 /\ 0 <= found <= 7.
Proof.
  cbv zeta. cbn [List.filter]. unfold Nlp.filled.
  destruct (Nlp.counted (Nlp.of_option o1)), (Nlp.counted (Nlp.of_option o2)),
    (Nlp.counted (Nlp.of_option o3)), (Nlp.counted (Nlp.of_option o4)),
    (Nlp.counted (Nlp.of_option o5)), (Nlp.counted (Nlp.of_option o6)),
    (Nlp.counted (Nlp.of_option o7));
    cbn [Nlp.counted length]; lia.
Qed.

Lemma confidence_of_count (k : Z) :
  0 <= k <= 7 ->
  let c := Qmin (inject_Z (k + 1) / 6.0) 1.0 in
  (1 / 6 <= c <= 1)%Q /\ ((c == 1)%Q <-> 5 <= k).
Proof.
  intros Hk.
  assert (k = 0 \/ k = 1 \/ k = 2 \/ k = 3 \/ k = 4 \/ k = 5 \/ k = 6 \/ k = 7)
    as Hcases by lia.
  cbv zeta.
  repeat (destruct Hcases as [-> | Hcases]); try subst k;
    (split; [split; vm_compute; discriminate|]);
    (split; [intros H; vm_compute in H; first [discriminate H | lia]
            | intros H; first [lia | vm_compute; reflexivity]]).
Qed.

(** X22: when the language pipeline answers, the confidence of an
    extraction is (found + 1) / 6 capped at 1, where found counts the
    seven fields that hold a non-empty string: the [confidence] entry of
    the dictionary counts itself, so the confidence is at least 1/6 even
    when nothing was extracted, and it reaches 1 as soon as five fields
    are found.  When the pipeline raises, every field is empty and the
    confidence is 0. *)
Theorem extraction_confidence
    (nlp_en : string -> option (list (string * string)))
    (re_search : string -> string -> option string)
    (lower strip : string -> string) (text : string) :
  let e := Nlp.extract_entities_from_text nlp_en re_search lower strip text in
  match nlp_en text with
  | None => Nlp.confidence e = 0.0%Q /\ Nlp.fields_found e = 0
  | Some _ =>
      (Nlp.confidence e
       == Qmin (inject_Z (Nlp.fields_found e + 1) / 6.0) 1.0)%Q /\
      (1 / 6 <= Nlp.confidence e <= 1)%Q /\
      ((Nlp.confidence e == 1)%Q <-> 5 <= Nlp.fields_found e)
  end.
Proof.
  cbv zeta. unfold Nlp.extract_entities_from_text.
  destruct (nlp_en text) as [ents|]; [|split; reflexivity].
  destruct (Nlp.by_label ents) as [[names locations] dates].
  unfold Nlp.fields_found.
  cbn [Nlp.name Nlp.address Nlp.asset_type Nlp.certificate_id Nlp.date
       Nlp.amount Nlp.location Nlp.confidence].
  match goal with
  | |- context [List.filter Nlp.filled [?o1; ?o2; ?o3; ?o4; ?o5; ?o6; ?o7]] =>
      destruct (counted_values o1 o2 o3 o4 o5 o6 o7) as [Hc Hk];
      cbv zeta in Hc, Hk; rewrite Hc;
      generalize dependent
        (Z.of_nat (length (List.filter Nlp.filled [o1; o2; o3; o4; o5; o6; o7])))
  end.
  intros k _ Hk. split; [reflexivity|].
  exact (confidence_of_count k Hk).
Qed.

Example nothing_extracted :
  let e :=
    Nlp.extract_entities_from_text
      (fun _ => Some []) (fun _ _ => None) (fun s => s) (fun s => s)
      "lorem ipsum" in
  Nlp.fields_found e = 0 /\ (Nlp.confidence e == 1 / 6)%Q.
Proof. split; vm_compute; reflexivity. Qed.
